(** * membershipship: the roster ingestion pipeline

    A shallow embedding of the CSV ingestion code of [membershipship.go]
    (and of its later revision, which differs in the layout list of
    [parseDate] only): [parseDate], [readCSVFromUrl] and
    [fetchMemberData], together with the fragments of Go's [strings],
    [time] and [encoding/csv] packages these functions call.

    Go strings are byte sequences; they are modelled by [string], one
    [ascii] per byte.  Go's [int] is modelled by [Z]; every quantity that
    occurs (years, months, days, indices) stays far below 2^63. *)

From Stdlib Require Import ZArith List String Ascii Bool Lia DecimalString.
Import ListNotations.

Local Open Scope string_scope.
Local Open Scope Z_scope.

(** ** Package [strings]: [TrimSpace] *)

Module GoStrings.

Definition byte_in (lo hi : N) (c : ascii) : bool :=
  (N.leb lo (N_of_ascii c) && N.leb (N_of_ascii c) hi)%bool.

Definition byte_is (n : N) (c : ascii) : bool := N.eqb (N_of_ascii c) n.

(** The table [asciiSpace]: tab, line feed, vertical tab, form feed,
    carriage return and space. *)
Definition asciiSpace (c : ascii) : bool :=
  (byte_in 9 13 c || byte_is 32 c)%bool.

(** [unicode.IsSpace] on the runes that UTF-8 encodes on two bytes:
    U+0085 (C2 85) and U+00A0 (C2 A0). *)
Definition space2 (c0 c1 : ascii) : bool :=
  (byte_is 194 c0 && (byte_is 133 c1 || byte_is 160 c1))%bool.

(** [unicode.IsSpace] on the runes that UTF-8 encodes on three bytes:
    U+1680 (E1 9A 80), U+2000..U+200A (E2 80 80..8A), U+2028, U+2029
    (E2 80 A8, A9), U+202F (E2 80 AF), U+205F (E2 81 9F) and U+3000
    (E3 80 80). *)
Definition space3 (c0 c1 c2 : ascii) : bool :=
  ((byte_is 225 c0 && byte_is 154 c1 && byte_is 128 c2)
   || (byte_is 226 c0 && byte_is 128 c1
       && (byte_in 128 138 c2 || byte_in 168 169 c2 || byte_is 175 c2))
   || (byte_is 226 c0 && byte_is 129 c1 && byte_is 159 c2)
   || (byte_is 227 c0 && byte_is 128 c1 && byte_is 128 c2))%bool.

(** [TrimLeftFunc(s, unicode.IsSpace)]: the white-space runes at the
    front of [s] are dropped.  A rune decoded from the front of [s] is
    a white-space rune exactly when [s] starts with its (shortest-form)
    encoding, so the decoder is not modelled apart. *)
Fixpoint TrimLeftSpace (s : string) : string :=
  match s with
  | EmptyString => s
  | String c0 s1 =>
      if asciiSpace c0 then TrimLeftSpace s1 else
      match s1 with
      | EmptyString => s
      | String c1 s2 =>
          if space2 c0 c1 then TrimLeftSpace s2 else
          match s2 with
          | EmptyString => s
          | String c2 s3 =>
              if space3 c0 c1 c2 then TrimLeftSpace s3 else s
          end
      end
  end.

(** The same from the back, on the reversed byte list: [l] is the
    string read from its last byte to its first. *)
Fixpoint trimRev (l : list ascii) : list ascii :=
  match l with
  | [] => l
  | c0 :: l1 =>
      if asciiSpace c0 then trimRev l1 else
      match l1 with
      | [] => l
      | c1 :: l2 =>
          if space2 c1 c0 then trimRev l2 else
          match l2 with
          | [] => l
          | c2 :: l3 => if space3 c2 c1 c0 then trimRev l3 else l
          end
      end
  end.

Definition TrimRightSpace (s : string) : string :=
  string_of_list_ascii (rev (trimRev (rev (list_ascii_of_string s)))).

(** [strings.TrimSpace]: leading, then trailing white space removed. *)
Definition TrimSpace (s : string) : string :=
  TrimRightSpace (TrimLeftSpace s).

End GoStrings.

(** ** Package [time]: the fragment behind [time.Parse] and [AddDate]

    A [Time] is kept in broken-down form: the civil date and clock that
    [t.Date()], [t.Clock()] and [t.Nanosecond()] return, in the location
    [t.Location()].  Go stores an instant and converts on demand; the
    program only ever reads a [Time] through these accessors.  The
    monotonic clock reading of [time.Now()] is dropped by [AddDate] and
    is not modelled. *)

Module GoTime.

(** A wall clock: a date and a time of day, in no location. *)
Record Wall : Set := mkWall {
  wyear : Z; wmonth : Z; wday : Z;
  whour : Z; wminute : Z; wsecond : Z
}.

(** [time.UTC], or a location with a time zone, such as [time.Local].
    [Date] looks up the zone offset in effect at the wall clock it is
    given and stores the instant; the accessors convert the instant
    back.  A wall clock that the location has exactly once comes back
    unchanged.  One that a zone transition skips or repeats, [Date]
    resolves in one of the two zones involved, and the accessors may
    return another hour, or another day.  A location is kept as this
    function: [zone c] is the wall clock that the accessors return for
    the time that [Date] builds from the wall clock [c]. *)
Inductive Location : Set := UTC | Local (zone : Wall -> Wall).

Record Time : Set := mkTime {
  year : Z; month : Z; day : Z;
  hour : Z; minute : Z; second : Z; nsec : Z;
  loc : Location
}.

(** The zero value [time.Time{}]: January 1, year 1, 00:00:00 UTC. *)
Definition zeroTime : Time := mkTime 1 1 1 0 0 0 0 UTC.

Definition isLeap (y : Z) : bool :=
  (Z.rem y 4 =? 0) && (negb (Z.rem y 100 =? 0) || (Z.rem y 400 =? 0)).

(** [daysBefore[m]]: days in a non-leap year before month [m+1]. *)
Definition daysBefore (m : Z) : Z :=
  nth (Z.to_nat m) [0; 31; 59; 90; 120; 151; 181; 212; 243; 273; 304; 334; 365] 0.

Definition daysIn (m y : Z) : Z :=
  if (m =? 2) && isLeap y then 29 else daysBefore m - daysBefore (m - 1).

(** [norm]: [hi, lo] with [lo] brought into [0, base). *)
Definition norm (hi lo base : Z) : Z * Z :=
  let '(hi, lo) :=
    if lo <? 0 then
      let n := (- lo - 1) / base + 1 in (hi - n, lo + n * base)
    else (hi, lo) in
  if base <=? lo then
    let n := lo / base in (hi + n, lo - n * base)
  else (hi, lo).

(** Days outside the month carry into the neighbouring months, one
    month at a time ("October 32 converts to November 1"). *)
Fixpoint rollDay (fuel : nat) (y m d : Z) : Z * Z * Z :=
  match fuel with
  | O => (y, m, d)
  | S k =>
      if d <? 1 then
        let '(py, pm) := if m =? 1 then (y - 1, 12) else (y, m - 1) in
        rollDay k py pm (d + daysIn pm py)
      else if daysIn m y <? d then
        let '(ny, nm) := if m =? 12 then (y + 1, 1) else (y, m + 1) in
        rollDay k ny nm (d - daysIn m y)
      else (y, m, d)
  end.

(** The time that the normalised wall clock gives in the location. *)
Definition resolve (l : Location) (y m d h mi s ns : Z) : Time :=
  match l with
  | UTC => mkTime y m d h mi s ns l
  | Local zone =>
      let c := zone (mkWall y m d h mi s) in
      mkTime (wyear c) (wmonth c) (wday c) (whour c) (wminute c) (wsecond c) ns l
  end.

(** [time.Date]: month, clock and day are normalised in this order, and
    the wall clock that results is resolved in the location. *)
Definition Date (y m d h mi s ns : Z) (l : Location) : Time :=
  let '(y, m0) := norm y (m - 1) 12 in
  let m := m0 + 1 in
  let '(s, ns) := norm s ns 1000000000 in
  let '(mi, s) := norm mi s 60 in
  let '(h, mi) := norm h mi 60 in
  let '(d, h) := norm d h 24 in
  let '(y, m, d) := rollDay (S (Z.to_nat (Z.abs d))) y m d in
  resolve l y m d h mi s ns.

(** [t.AddDate(years, months, days)]. *)
Definition AddDate (t : Time) (years months days : Z) : Time :=
  Date (year t + years) (month t + months) (day t + days)
       (hour t) (minute t) (second t) (nsec t) (loc t).

(** A broken-down time as the accessors of a Go [Time] return it. *)
Definition wellFormed (t : Time) : Prop :=
  1 <= month t <= 12 /\ 1 <= day t <= daysIn (month t) (year t) /\
  0 <= hour t < 24 /\ 0 <= minute t < 60 /\ 0 <= second t < 60 /\
  0 <= nsec t < 1000000000.

(** *** Layouts *)

(** The reference-time elements: those the layouts of the program are
    made of, and [stdOther] for every other one. *)
Inductive std : Set :=
| stdNone          (* 0: no element left *)
| stdLongYear      (* "2006" *)
| stdZeroMonth     (* "01" *)
| stdNumMonth      (* "1" *)
| stdZeroDay       (* "02" *)
| stdDay           (* "2" *)
| stdOther.

Definition isPrefix (p s : string) : bool := String.prefix p s.

Fixpoint drop (n : nat) (s : string) : string :=
  match n, s with
  | O, _ => s
  | S k, String _ s' => drop k s'
  | S _, EmptyString => EmptyString
  end.

Definition isByte (c : ascii) (k : string) : bool :=
  match k with
  | String k0 _ => Ascii.eqb c k0
  | EmptyString => false
  end.

Fixpoint oneOf (c : ascii) (set : string) : bool :=
  match set with
  | EmptyString => false
  | String k set' => Ascii.eqb c k || oneOf c set'
  end.

(** The reference-time element that starts at the head of [layout],
    with the layout that follows it: the cases ['0'], ['1'] and ['2']
    of the [switch] of [nextStdChunk].  A byte that may start another
    element (J M _ 3 4 5 P p - Z . ,) gives [stdOther]. *)
Definition chunkAt (layout : string) : option (std * string) :=
  match layout with
  | EmptyString => None
  | String c rest =>
      if isByte c "0" then                         (* 01, 02, 03, 04, 05, 06, 002 *)
        match rest with
        | String c1 suffix =>
            if isByte c1 "1" then Some (stdZeroMonth, suffix)
            else if isByte c1 "2" then Some (stdZeroDay, suffix)
            else if oneOf c1 "3456" then Some (stdOther, suffix)
            else if isByte c1 "0" then
              match suffix with
              | String c2 suffix' =>
                  if isByte c2 "2" then Some (stdOther, suffix') else None
              | EmptyString => None
              end
            else None
        | EmptyString => None
        end
      else if isByte c "1" then                    (* 15, 1 *)
        match rest with
        | String c1 suffix =>
            if isByte c1 "5" then Some (stdOther, suffix)
            else Some (stdNumMonth, rest)
        | EmptyString => Some (stdNumMonth, rest)
        end
      else if isByte c "2" then                    (* 2006, 2 *)
        if isPrefix "2006" layout then Some (stdLongYear, drop 4 layout)
        else Some (stdDay, rest)
      else if oneOf c "JM_345Pp-Z.," then Some (stdOther, rest)
      else None
  end.

(** [nextStdChunk]: the literal prefix, the first element, the rest. *)
Fixpoint nextStdChunk (layout : string) : string * std * string :=
  match layout with
  | EmptyString => (EmptyString, stdNone, EmptyString)
  | String c rest =>
      match chunkAt layout with
      | Some (s, suffix) => (EmptyString, s, suffix)
      | None =>
          let '(prefix, s, suffix) := nextStdChunk rest in
          (String c prefix, s, suffix)
      end
  end.

(** *** Parsing *)

(** [isDigit(s, i)] for [i = 0]; [isDigit(s, 1)] is [isDigit0] of the
    tail. *)
Definition digit (c : ascii) : bool := GoStrings.byte_in 48 57 c.

Definition digitVal (c : ascii) : Z := Z.of_N (N_of_ascii c) - 48.

Definition isDigit0 (s : string) : bool :=
  match s with
  | String c _ => digit c
  | EmptyString => false
  end.

(** [getnum]: one or two digits; with [fixed], exactly two.  [None] is
    [errBad]. *)
Definition getnum (s : string) (fixed : bool) : option (Z * string) :=
  match s with
  | EmptyString => None
  | String c0 s1 =>
      if negb (digit c0) then None
      else if negb (isDigit0 s1) then
        if fixed then None else Some (digitVal c0, s1)
      else
        match s1 with
        | String c1 s2 => Some (digitVal c0 * 10 + digitVal c1, s2)
        | EmptyString => None
        end
  end.

(** [leadingInt]: the digits at the front of [s] as a number, and what
    follows them; [None] when the number leaves 63 bits. *)
Fixpoint leadingInt (x : Z) (s : string) : option (Z * string) :=
  match s with
  | EmptyString => Some (x, s)
  | String c rest =>
      if negb (digit c) then Some (x, s)
      else if 2 ^ 63 / 10 <? x then None
      else
        let x := x * 10 + digitVal c in
        if 2 ^ 63 <? x then None else leadingInt x rest
  end.

(** [atoi]: an optional sign, then digits up to the end of [s]. *)
Definition atoi (s : string) : option Z :=
  let '(neg, s) :=
    match s with
    | String "-"%char rest => (true, rest)
    | String "+"%char rest => (false, rest)
    | _ => (false, s)
    end in
  match leadingInt 0 s with
  | Some (q, EmptyString) => Some (if neg then - q else q)
  | _ => None
  end.

Fixpoint cutspace (s : string) : string :=
  match s with
  | String " "%char rest => cutspace rest
  | _ => s
  end.

(** [skip(value, prefix)]: [value] without the literal [prefix]; a run
    of spaces in [prefix] stands for any run of spaces in [value].
    [run] tells that the spaces of [value] were cut for the run of
    spaces of [prefix] being read. *)
Fixpoint skipFrom (run : bool) (value prefix : string) : option string :=
  match prefix with
  | EmptyString => Some value
  | String " "%char prefix' =>
      if run then skipFrom true value prefix'
      else
        match value with
        | String v _ =>
            if Ascii.eqb v " " then skipFrom true (cutspace value) prefix'
            else None
        | EmptyString => skipFrom true value prefix'
        end
  | String c prefix' =>
      match value with
      | String v value' =>
          if Ascii.eqb v c then skipFrom false value' prefix' else None
      | EmptyString => None
      end
  end.

Definition skip (value prefix : string) : option string :=
  skipFrom false value prefix.

(** The loop of [Parse] over the elements of [layout]: the year, month
    and day read so far are threaded; [None] is any [*ParseError].
    Each turn leaves a shorter layout, so [fuel] above the length of
    [layout] is never used up. *)
Fixpoint parseLoop (fuel : nat) (layout value : string) (y m d : Z)
  : option (Z * Z * Z) :=
  match fuel with
  | O => None
  | S k =>
      let '(prefix, s, suffix) := nextStdChunk layout in
      match skip value prefix with
      | None => None
      | Some value =>
          match s with
          | stdNone =>
              if (String.length value =? 0)%nat then Some (y, m, d) else None
          | stdLongYear =>
              if (String.length value <? 4)%nat || negb (isDigit0 value)
              then None
              else
                match atoi (String.substring 0 4 value) with
                | Some y => parseLoop k suffix (drop 4 value) y m d
                | None => None
                end
          | stdNumMonth | stdZeroMonth =>
              match getnum value (match s with stdZeroMonth => true | _ => false end) with
              | Some (m, value) =>
                  if (m <=? 0) || (12 <? m) then None
                  else parseLoop k suffix value y m d
              | None => None
              end
          | stdDay | stdZeroDay =>
              match getnum value (match s with stdZeroDay => true | _ => false end) with
              | Some (d, value) => parseLoop k suffix value y m d
              | None => None
              end
          | stdOther => None
          end
      end
  end.

(** [time.Parse(layout, value)]: the fields not in the layout default
    to January and to the 1st, the day is checked against the month,
    and the result is in UTC. *)
Definition Parse (layout value : string) : option Time :=
  match parseLoop (S (String.length layout)) layout value 0 (-1) (-1) with
  | None => None
  | Some (y, m, d) =>
      let m := if m <? 0 then 1 else m in
      let d := if d <? 0 then 1 else d in
      if (d <? 1) || (daysIn m y <? d) then None
      else Some (Date y m d 0 0 0 0 UTC)
  end.

End GoTime.

(** ** The world around the pipeline

    The remote server, the CSV decoder of [encoding/csv], the wall clock
    and the process environment are inputs of the program.  What the
    program does to them is recorded in a trace, so that "no fetch was
    made" or "a warning was logged" can be stated. *)

(** Go's [error] values, by where they are made. *)
Inductive error : Set :=
| NetError (msg : string)      (* returned by [http.Get] *)
| CsvError (msg : string)      (* returned by [csv.Reader.ReadAll] *)
| Errorf (msg : string).       (* built by [fmt.Errorf] *)

(** ** Package [encoding/csv]: the field count of [ReadAll]

    [readRecord] parses one record from the stream and then compares the
    number of its fields with [r.FieldsPerRecord].  [NewReader] leaves
    that at 0, and the program does not set it: the first record sets
    it, and every later record must have as many fields.  How lines,
    commas and quotes make records is not modelled: the records are
    the argument [input] below. *)

Module GoCsv.

Definition ErrFieldCount : string := "wrong number of fields".

(** [%d] of a line number. *)
Definition decimal (n : nat) : string :=
  NilEmpty.string_of_uint (Nat.to_uint n).

(** The [ParseError] that [readRecord] makes of [ErrFieldCount] for the
    record that starts on line [recLine], as [Error()] prints it. *)
Definition fieldCountError (recLine : nat) : error :=
  CsvError ("record on line " ++ decimal recLine ++ ": " ++ ErrFieldCount).

(** The loop of [ReadAll].  [input] holds the records that [readRecord]
    parses without error, each with the line it starts on; [last] is
    the parse error that ends them, when the stream does not end first.
    [FieldsPerRecord] is the field of the reader, [records] the result
    so far. *)
Fixpoint readRecords (FieldsPerRecord : Z) (input : list (nat * list string))
  (last : option error) (records : list (list string))
  : list (list string) + error :=
  match input with
  | [] =>
      match last with
      | Some err => inr err
      | None => inl records
      end
  | (recLine, dst) :: input' =>
      if 0 <? FieldsPerRecord then
        if negb (Z.of_nat (List.length dst) =? FieldsPerRecord) then
          inr (fieldCountError recLine)
        else readRecords FieldsPerRecord input' last (records ++ [dst])
      else if FieldsPerRecord =? 0 then
        readRecords (Z.of_nat (List.length dst)) input' last (records ++ [dst])
      else readRecords FieldsPerRecord input' last (records ++ [dst])
  end.

(** [csv.NewReader(body).ReadAll()], over the parser of records. *)
Definition ReadAll (parse : string -> list (nat * list string) * option error)
  (body : string) : list (list string) + error :=
  let '(input, last) := parse body in
  readRecords 0 input last [].

End GoCsv.

(** [*http.Response]: the status line is there; the body is the byte
    stream [resp.Body]. *)
Record Response : Set := mkResponse {
  StatusCode : Z;
  Body : string
}.

Record World : Type := mkWorld {
  (** [http.Get(url)]: a response of any status, or an error. *)
  Get : string -> Response + error;
  (** [csv.NewReader(body).ReadAll()] with comma as separator. *)
  ReadAll : string -> list (list string) + error;
  (** The [n]-th reading of [time.Now()] in the run. *)
  Now : nat -> GoTime.Time;
  (** [os.Getenv]. *)
  Getenv : string -> string
}.

Inductive Event : Set :=
| EvGet (url : string)                 (* a request was sent *)
| EvClose                              (* [resp.Body.Close()] *)
| EvLog (row : nat) (err : error).     (* [log.Printf] of the fallback *)

Record State : Set := mkState {
  ticks : nat;             (* readings of [time.Now()] taken so far *)
  trace : list Event
}.

Definition M (A : Type) : Type := State -> A * State.

Definition ret {A : Type} (a : A) : M A := fun st => (a, st).

Definition bind {A B : Type} (c : M A) (k : A -> M B) : M B :=
  fun st => let '(a, st') := c st in k a st'.

Declare Scope go_scope.
Delimit Scope go_scope with go.
Notation "x <- c ;; k" := (bind c (fun x => k))
  (at level 61, c at next level, right associativity) : go_scope.
Notation "c ;;; k" := (bind c (fun _ => k))
  (at level 61, right associativity) : go_scope.

Definition emit (e : Event) : M unit :=
  fun st => (tt, mkState (ticks st) (trace st ++ [e])).

Definition tick : M nat :=
  fun st => (ticks st, mkState (S (ticks st)) (trace st)).

(** ** The program *)

Record Member : Set := mkMember {
  FirstName : string;
  LastName : string;
  Email : string;
  JoinDate : GoTime.Time;
  ExpirationDate : GoTime.Time
}.

(** [row[k]].  Every use is behind the test [len(row) < 6] with
    [k <= 5], so the index is in range (lemma [index_in_range]). *)
Definition index (row : list string) (k : nat) : string := nth k row "".

Module Source.
Section Program.

Variable w : World.

(** The layout list is what the two revisions of the program differ
    in. *)
Variable layouts : list string.

Definition http_Get (url : string) : M (Response + error) :=
  (emit (EvGet url) ;;; ret (Get w url))%go.

Definition Body_Close : M unit := emit EvClose.

Definition time_Now : M GoTime.Time :=
  (n <- tick ;; ret (Now w n))%go.

Definition log_Printf (i : nat) (err : error) : M unit := emit (EvLog i err).

(** The [for _, layout := range layouts] loop of [parseDate]. *)
Fixpoint tryLayouts (ls : list string) (dateStr : string)
  : GoTime.Time * option error :=
  match ls with
  | [] => (GoTime.zeroTime, Some (Errorf ("unable to parse date: " ++ dateStr)))
  | layout :: ls' =>
      match GoTime.Parse layout dateStr with
      | Some parsedTime => (parsedTime, None)
      | None => tryLayouts ls' dateStr
      end
  end.

Definition parseDate (dateStr : string) : GoTime.Time * option error :=
  let dateStr := GoStrings.TrimSpace dateStr in
  tryLayouts layouts dateStr.

(** The [for i, row := range data] loop of [readCSVFromUrl]. *)
Fixpoint rowsLoop (i : nat) (data : list (list string)) (members : list Member)
  : M (list Member) :=
  match data with
  | [] => ret members
  | row :: data' =>
      if (i =? 0)%nat || (List.length row <? 6)%nat then
        rowsLoop (S i) data' members
      else
        (let '(joinDate, err) := parseDate (index row 5) in
         joinDate <- match err with
                     | Some e => log_Printf i e ;;; time_Now
                     | None => ret joinDate
                     end ;;
         let member :=
           mkMember (GoStrings.TrimSpace (index row 1))
                    (GoStrings.TrimSpace (index row 2))
                    (GoStrings.TrimSpace (index row 3))
                    joinDate
                    (GoTime.AddDate joinDate 1 0 0) in
         rowsLoop (S i) data' (members ++ [member]))%go
  end.

Definition readCSVFromUrl (url : string) : M (list Member * option error) :=
  (r <- http_Get url ;;
   match r with
   | inr err => ret ([], Some err)
   | inl resp =>
       out <- match ReadAll w (Body resp) with
              | inr err => ret ([], Some err)
              | inl data =>
                  members <- rowsLoop 0 data [] ;;
                  ret (members, None)
              end ;;
       Body_Close ;;;            (* deferred *)
       ret out
   end)%go.

Definition fetchMemberData : M (list Member * option error) :=
  let url := Getenv w "CSV_URL" in
  if String.eqb url "" then
    ret ([], Some (Errorf "CSV_URL environment variable is not set"))
  else readCSVFromUrl url.

End Program.
End Source.

(** [membershipship.go]. *)
Module Membershipship.

Definition layouts : list string :=
  [ "02/01/2006";  (* DD/MM/YYYY *)
    "2/1/2006";    (* D/M/YYYY *)
    "1/2/2006";    (* M/D/YYYY *)
    "02/1/2006";   (* DD/M/YYYY *)
    "2/01/2006";   (* D/MM/YYYY *)
    "2006" ].      (* YYYY *)

Definition parseDate := Source.parseDate layouts.
Definition readCSVFromUrl (w : World) := Source.readCSVFromUrl w layouts.
Definition fetchMemberData (w : World) := Source.fetchMemberData w layouts.

End Membershipship.

(** The revision with the wallet-card handlers. *)
Module Revision.

Definition layouts : list string :=
  [ "02/01/2006";  (* DD/MM/YYYY *)
    "2/1/2006";    (* D/M/YYYY *)
    "1/2/2006";    (* M/D/YYYY *)
    "02/1/2006";   (* DD/M/YYYY *)
    "2/01/2006" ]. (* D/MM/YYYY *)

Definition parseDate := Source.parseDate layouts.
Definition readCSVFromUrl (w : World) := Source.readCSVFromUrl w layouts.
Definition fetchMemberData (w : World) := Source.fetchMemberData w layouts.

End Revision.

(** ** Test worlds *)

Module Fixture.

(** [s] cut at every [sep]. *)
Fixpoint split (sep : ascii) (s : string) : list string :=
  match s with
  | EmptyString => [EmptyString]
  | String c rest =>
      if Ascii.eqb c sep then EmptyString :: split sep rest
      else
        match split sep rest with
        | f :: fs => String c f :: fs
        | [] => [String c EmptyString]
        end
  end.

Definition nonEmpty (s : string) : bool := negb (String.eqb s "").

Definition sameCount (rows : list (list string)) : bool :=
  match rows with
  | [] => true
  | r :: rs => forallb (fun r' => (List.length r' =? List.length r)%nat) rs
  end.

(** What [encoding/csv] makes of a payload that has no quote and no
    carriage return: one record per non-empty line, one field per
    comma, and [ErrFieldCount] when a record has not as many fields as
    the first. *)
Definition plainRows (body : string) : list (list string) + error :=
  let rows := map (split ",") (filter nonEmpty (split "010" body)) in
  if sameCount rows then inl rows
  else inr (CsvError "wrong number of fields").

(** A local zone that moves its clocks from 02:00 to 03:00 on March 10,
    2024: the wall clocks of that hour do not exist, and [Date] returns
    for them the time one hour earlier (for 02:30, 01:30).  Every other
    wall clock is left as it is. *)
Definition eastern (c : GoTime.Wall) : GoTime.Wall :=
  if (GoTime.wyear c =? 2024) && (GoTime.wmonth c =? 3)
     && (GoTime.wday c =? 10) && (GoTime.whour c =? 2)
  then GoTime.mkWall 2024 3 10 1 (GoTime.wminute c) (GoTime.wsecond c)
  else c.

(** A local zone that moves its clocks from 00:00 to 01:00 on November
    4, 2018: for the wall clocks of that hour [Date] returns the time
    one hour earlier, on November 3. *)
Definition southern (c : GoTime.Wall) : GoTime.Wall :=
  if (GoTime.wyear c =? 2018) && (GoTime.wmonth c =? 11)
     && (GoTime.wday c =? 4) && (GoTime.whour c =? 0)
  then GoTime.mkWall 2018 11 3 23 (GoTime.wminute c) (GoTime.wsecond c)
  else c.

(** A clock that reads February 29, 2024, 10:30 local time, one second
    later at each reading. *)
Definition leapClock (n : nat) : GoTime.Time :=
  GoTime.mkTime 2024 2 29 10 30 (Z.of_nat n mod 60) 0 (GoTime.Local eastern).

Definition roster : string :=
  "id,first,last,email,phone,joined" ++ String "010"
    ("7, Ann ,Lee,ann@x.com,555,15/03/2023" ++ String "010"
    ("8,Bo,Kim,bo@x.com,556,29/02/2020" ++ String "010"
    ("9,Cy,Roe,cy@x.com,557,not-a-date" ++ String "010" ""))).

Definition feed : string := "http://roster.test/members.csv".

(** A server that has the roster at [feed] and answers every other
    request with status 404 and the same payload. *)
Definition server (url : string) : Response + error :=
  if String.eqb url feed then inl (mkResponse 200 roster)
  else if String.eqb url "" then inr (NetError "unsupported protocol scheme")
  else inl (mkResponse 404 roster).

Definition env (name : string) : string :=
  if String.eqb name "CSV_URL" then feed else "".

Definition world : World := mkWorld server plainRows leapClock env.

(** The same with a server that cannot be reached. *)
Definition offline : World :=
  mkWorld (fun _ => inr (NetError "connection refused")) plainRows leapClock env.

(** The same with [CSV_URL] unset. *)
Definition unset : World :=
  mkWorld server plainRows leapClock (fun _ => "").

Definition start : State := mkState 0 [].

End Fixture.

(** A world that serves the three rows of the specification's
    end-to-end example and decodes with [encoding/csv]. *)
Module Ragged.

(** The lines with their numbers, from [n] on. *)
Fixpoint numbered (n : nat) (lines : list string) : list (nat * string) :=
  match lines with
  | [] => []
  | line :: lines' => (n, line) :: numbered (S n) lines'
  end.

(** The records of a payload that has no quote and no carriage return:
    one per non-empty line, one field per comma. *)
Definition plainRecords (body : string) : list (nat * list string) * option error :=
  (map (fun nl => (fst nl, Fixture.split "," (snd nl)))
       (filter (fun nl => Fixture.nonEmpty (snd nl))
               (numbered 1 (Fixture.split "010" body))),
   None).

Definition threeRows : string :=
  "H1,H2,H3,H4,H5,H6" ++ String "010"
    ("x,Ann,Lee,ann@x.com,y,15/03/2023" ++ String "010"
    ("x,Bo,Kim,bo@x.com" ++ String "010" "")).

Definition world : World :=
  mkWorld (fun _ => inl (mkResponse 200 threeRows))
          (GoCsv.ReadAll plainRecords) Fixture.leapClock Fixture.env.

End Ragged.

(** * Vocabulary of the properties *)

Module Spec.
Import GoStrings GoTime.

(** The encoding of one white-space rune. *)
Definition isSpaceRune (r : string) : bool :=
  match r with
  | String c EmptyString => asciiSpace c
  | String c0 (String c1 EmptyString) => space2 c0 c1
  | String c0 (String c1 (String c2 EmptyString)) => space3 c0 c1 c2
  | _ => false
  end.

(** Strings made of white-space runes only. *)
Inductive spaces : string -> Prop :=
| spaces_nil : spaces ""
| spaces_rune r : isSpaceRune r = true -> spaces r
| spaces_app a b : spaces a -> spaces b -> spaces (a ++ b).

Definition startsWithSpace (t : string) : Prop :=
  exists r rest, isSpaceRune r = true /\ t = r ++ rest.

Definition endsWithSpace (t : string) : Prop :=
  exists r rest, isSpaceRune r = true /\ t = rest ++ r.

(** [t] is [s] without the white space around it. *)
Definition trimmed (t s : string) : Prop :=
  (exists pre post, s = pre ++ t ++ post /\ spaces pre /\ spaces post)
  /\ ~ startsWithSpace t /\ ~ endsWithSpace t.

Definition headSpace (s : string) : bool :=
  match s with
  | EmptyString => false
  | String c0 s1 =>
      asciiSpace c0 ||
      match s1 with
      | EmptyString => false
      | String c1 s2 =>
          space2 c0 c1 ||
          match s2 with
          | EmptyString => false
          | String c2 _ => space3 c0 c1 c2
          end
      end
  end.

Definition headSpaceRev (l : list ascii) : bool :=
  match l with
  | [] => false
  | c0 :: l1 =>
      asciiSpace c0 ||
      match l1 with
      | [] => false
      | c1 :: l2 =>
          space2 c1 c0 ||
          match l2 with
          | [] => false
          | c2 :: _ => space3 c2 c1 c0
          end
      end
  end.

(** February 29. *)
Definition isFeb29 (t : Time) : bool := (month t =? 2) && (day t =? 29).

(** [e] is on the month and day of [j], one year later. *)
Definition sameDayNextYear (j e : Time) : Prop :=
  year e = year j + 1 /\ month e = month j /\ day e = day j.

(** [e] is on March 1 of the year after [j]. *)
Definition marchFirstNextYear (j e : Time) : Prop :=
  year e = year j + 1 /\ month e = 3 /\ day e = 1.

(** The wall clock of [j] one year on: the same month, day and clock in
    the next year, and March 1 when [j] is on February 29. *)
Definition wallYearOn (j : Time) : Wall :=
  if isFeb29 j
  then mkWall (year j + 1) 3 1 (hour j) (minute j) (second j)
  else mkWall (year j + 1) (month j) (day j) (hour j) (minute j) (second j).

(** The location of [j] has the wall clock of [j] one year on, on the
    day asked for: no zone transition moves it to another day.  This is
    so in [UTC]. *)
Definition keepsDay (j : Time) : Prop :=
  match loc j with
  | UTC => True
  | Local zone =>
      let c := wallYearOn j in
      wyear (zone c) = wyear c /\ wmonth (zone c) = wmonth c
      /\ wday (zone c) = wday c
  end.

(** The elements of a layout in order, each with the literal text
    before it; the last entry is the text after the last element. *)
Fixpoint elements (fuel : nat) (layout : string) : list (string * std) :=
  match fuel with
  | O => []
  | S k =>
      let '(prefix, s, suffix) := nextStdChunk layout in
      match s with
      | stdNone => [(prefix, stdNone)]
      | _ => (prefix, s) :: elements k suffix
      end
  end.

Definition layoutElements (layout : string) : list (string * std) :=
  elements (S (String.length layout)) layout.

(** The month that [Parse] holds while it reads: unset, or in range. *)
Definition monthField (m : Z) : Prop := m = -1 \/ 1 <= m <= 12.

End Spec.

(** The decoder of [w] is [encoding/csv] over the record parser
    [parse]. *)
Definition decodes (w : World)
  (parse : string -> list (nat * list string) * option error) : Prop :=
  forall body, ReadAll w body = GoCsv.ReadAll parse body.

(** The loop as [readCSVFromUrl] starts it: from row 0, with no member. *)
Definition normalize (w : World) (layouts : list string)
  (data : list (list string)) : M (list Member) :=
  Source.rowsLoop w layouts 0 data [].

(** The rows that pass the test [i == 0 || len(row) < 6]. *)
Definition retained (i : nat) (row : list string) : bool :=
  negb ((i =? 0)%nat || (List.length row <? 6)%nat).


(** The member built from [row] once its join date is known. *)
Definition memberOf (row : list string) (joinDate : GoTime.Time) : Member :=
  mkMember (GoStrings.TrimSpace (index row 1))
           (GoStrings.TrimSpace (index row 2))
           (GoStrings.TrimSpace (index row 3))
           joinDate
           (GoTime.AddDate joinDate 1 0 0).

(** The join date of [m] was parsed from a string, or read from the
    clock. *)
Definition fromFeedOrClock (w : World) (layouts : list string) (m : Member) : Prop :=
  (exists dateStr, Source.parseDate layouts dateStr = (JoinDate m, None))
  \/ (exists n, JoinDate m = Now w n).

(** A member whose join date exists and whose expiration date is what
    [AddDate] makes of it. *)
Definition dated (m : Member) : Prop :=
  GoTime.wellFormed (JoinDate m)
  /\ ExpirationDate m = GoTime.AddDate (JoinDate m) 1 0 0.

(** The state after the warning is logged and the clock is read. *)
Definition afterFallback (i : nat) (e : error) (st : State) : State :=
  mkState (S (ticks st)) (trace st ++ [EvLog i e]).

(** The state once the request for [url] is sent, and once the body is
    closed. *)
Definition sent (url : string) (st : State) : State :=
  mkState (ticks st) (trace st ++ [EvGet url]).

Definition closed (st : State) : State :=
  mkState (ticks st) (trace st ++ [EvClose]).

(** The world [w] with every response given the status [code]. *)
Definition withStatus (code : Z) (w : World) : World :=
  mkWorld (fun url =>
             match Get w url with
             | inl resp => inl (mkResponse code (Body resp))
             | inr e => inr e
             end)
          (ReadAll w) (Now w) (Getenv w).


(** ** The handlers

    The handlers answer a request through an [http.ResponseWriter].
    What they do to it is recorded as the list of the calls made on it;
    the file system and the template engine are inputs, like the server
    of the feed. *)

Module Web.

(** The text of an error, [err.Error()]. *)
Definition message (e : error) : string :=
  match e with
  | NetError msg | CsvError msg | Errorf msg => msg
  end.

(** [Page].  The first revision has no [Members], the last one has
    [Members] only; a field that a revision lacks stays at its zero
    value. *)
Record Page : Set := mkPage {
  Title : string;
  Body : string;
  Members : list Member
}.

(** The data that [renderJsonTemplate] hands to its template. *)
Record Card : Set := mkCard {
  CardFirstName : string;
  CardLastName : string;
  CardExpirationDate : string
}.

(** A parsed template, [*template.Template]. *)
Record Template : Set := mkTemplate { handle : nat }.

Record Site : Type := mkSite {
  (** The world of the ingestion pipeline. *)
  feed : World;
  (** [os.ReadFile]: the contents, or the text of the error. *)
  ReadFile : string -> string + string;
  (** [template.ParseFiles(name)]. *)
  ParseFiles : string -> Template + string;
  (** [template.New("jsonTemplate").Parse(text)]. *)
  ParseText : string -> Template + string;
  (** [t.Execute(w, p)]: the bytes written to [w], and the error. *)
  ExecutePage : Template -> Page -> string * option string;
  (** [tmpl.Execute(&renderedTemplate, data)]. *)
  ExecuteCard : Template -> Card -> string * option string
}.

(** The calls made on the response writer. *)
Inductive Reply : Set :=
| Redirected (url : string) (code : Z)   (* [http.Redirect(w, r, url, code)] *)
| Failed (text : string) (code : Z)      (* [http.Error(w, text, code)] *)
| Wrote (bytes : string).                (* bytes written to [w] *)

Definition StatusFound : Z := 302.
Definition StatusInternalServerError : Z := 500.
Definition StatusNotImplemented : Z := 501.

(** A request being served: the state of the pipeline and the calls
    made on the response writer so far. *)
Record Visit : Set := mkVisit {
  run : State;
  replies : list Reply
}.

Definition H (A : Type) : Type := Visit -> A * Visit.

Definition done {A : Type} (a : A) : H A := fun v => (a, v).

Definition andThen {A B : Type} (c : H A) (k : A -> H B) : H B :=
  fun v => let '(a, v') := c v in k a v'.

(** A step of the pipeline, inside a handler. *)
Definition lift {A : Type} (c : M A) : H A :=
  fun v => let '(a, st) := c (run v) in (a, mkVisit st (replies v)).

Definition reply (r : Reply) : H unit :=
  fun v => (tt, mkVisit (run v) (replies v ++ [r])).

(** [url.Values] and its [Get]: the first value of the key, or "". *)
Definition Values : Type := string -> list string.

Definition ValuesGet (v : Values) (key : string) : string :=
  match v key with
  | [] => EmptyString
  | x :: _ => x
  end.

Section Handlers.

Variable site : Site.
Variable layouts : list string.

Definition loadPage (title : string) : Page + string :=
  let filename := (title ++ ".txt")%string in
  match ReadFile site filename with
  | inr err => inr err
  | inl body => inl (mkPage title body [])
  end.

(** [renderTemplate], and [renderHtmlTemplate] of the last revision. *)
Definition renderTemplate (tmpl : string) (p : Page) : H unit :=
  match ParseFiles site (tmpl ++ ".html")%string with
  | inr err => reply (Failed err StatusInternalServerError)
  | inl t =>
      let '(out, err) := ExecutePage site t p in
      andThen (reply (Wrote out)) (fun _ =>
        match err with
        | Some e => reply (Failed e StatusInternalServerError)
        | None => done tt
        end)
  end.

(** What [viewHomeHandler] does once it has a page [p]: fetch, then
    report the failure or render the page with the members. *)
Definition fetchAndRender (p : Page) : H unit :=
  andThen (lift (Source.fetchMemberData (feed site) layouts)) (fun r =>
    match r with
    | (_, Some err) =>
        reply (Failed ("Error fetching member data: " ++ message err)%string
                      StatusInternalServerError)
    | (members, None) =>
        renderTemplate "home" (mkPage (Title p) (Body p) members)
    end).

(** [viewHomeHandler] of the first revision: no feed yet. *)
Definition viewHomeHandler0 : H unit :=
  match loadPage "home" with
  | inr _ => reply (Redirected "/" StatusFound)
  | inl p => renderTemplate "home" p
  end.

(** [viewHomeHandler] of [membershipship.go]. *)
Definition viewHomeHandler : H unit :=
  match loadPage "home" with
  | inr _ => reply (Redirected "/" StatusFound)
  | inl p => fetchAndRender p
  end.

(** [viewHomeHandler] of the last revision: [p := &Page{}]. *)
Definition viewHomeHandler1 : H unit :=
  fetchAndRender (mkPage EmptyString EmptyString []).

Definition renderJsonTemplate (firstName lastName expirationDate : string)
  : string * option string :=
  let templateFile := "./google_card.json"%string in
  match ReadFile site templateFile with
  | inr err => (EmptyString, Some ("error reading JSON template file: " ++ err)%string)
  | inl templateStr =>
      let data := mkCard firstName lastName expirationDate in
      match ParseText site templateStr with
      | inr err => (EmptyString, Some ("error parsing JSON template: " ++ err)%string)
      | inl tmpl =>
          match ExecuteCard site tmpl data with
          | (_, Some err) =>
              (EmptyString, Some ("error rendering JSON template: " ++ err)%string)
          | (renderedTemplate, None) => (renderedTemplate, None)
          end
      end
  end.

(** [generateGoogleCardHandler]; [query] is [r.URL.Query()]. *)
Definition generateGoogleCardHandler (query : Values) : H unit :=
  let firstName := ValuesGet query "firstName" in
  let lastName := ValuesGet query "lastName" in
  let expirationDate := ValuesGet query "ExpirationDate" in
  match renderJsonTemplate firstName lastName expirationDate with
  | (_, Some err) =>
      reply (Failed ("Error generating JSON payload: " ++ err)%string
                    StatusInternalServerError)
  | (jsonPayload, None) => reply (Wrote (jsonPayload ++ String "010" ""))
  end.

Definition generateGoogleCard (jsonPayload : string) : string * option error :=
  (EmptyString, None).

Definition generateAppleCardHandler : H unit :=
  reply (Failed "Not implemented yet" StatusNotImplemented).

Definition googleApplicationCredentials : string * option error :=
  let credentials := Getenv (feed site) "GOOGLE_APPLICATION_CREDENTIALS" in
  if String.eqb credentials "" then
    (EmptyString,
     Some (Errorf "GOOGLE_APPLICATION_CREDENTIALS environment variable is not set"))
  else (credentials, None).

Definition googleClassId : string * option error :=
  let classId := Getenv (feed site) "GOOGLE_CLASS_ID" in
  if String.eqb classId "" then
    (EmptyString, Some (Errorf "GOOGLE_CLASS_ID environment variable is not set"))
  else (classId, None).

End Handlers.

(** A request as it arrives: the pipeline in state [st], nothing done to
    the response writer. *)
Definition arriving (st : State) : Visit := mkVisit st [].

End Web.

(** Test sites. *)
Module WebFixture.
Import Web.

Definition files (name : string) : string + string :=
  if String.eqb name "home.txt" then inl "Members of the club"%string
  else if String.eqb name "./google_card.json" then
    inl "{ name: {{.FirstName}} {{.LastName}}, until: {{.ExpirationDate}} }"%string
  else inr ("open " ++ name ++ ": no such file or directory")%string.

Definition templates (name : string) : Template + string :=
  if String.eqb name "home.html" then inl (mkTemplate 1)
  else inr ("open " ++ name ++ ": no such file or directory")%string.

(** A page template that lists the first names, one per line. *)
Definition listNames (t : Template) (p : Page) : string * option string :=
  (String.concat (String "010" "") (map FirstName (Members p)), None).

(** A card template that fails on an empty expiration date, after the
    name is written. *)
Definition fillCard (t : Template) (c : Card) : string * option string :=
  if String.eqb (CardExpirationDate c) "" then
    ((CardFirstName c ++ " " ++ CardLastName c)%string,
     Some "template: jsonTemplate: empty expiration"%string)
  else
    ((CardFirstName c ++ " " ++ CardLastName c ++ " until "
      ++ CardExpirationDate c)%string, None).

Definition site : Site :=
  mkSite Fixture.world files templates (fun _ => inl (mkTemplate 2))
         listNames fillCard.

(** The same without [home.txt]. *)
Definition bare : Site :=
  mkSite Fixture.world (fun name => inr ("open " ++ name)%string) templates
         (fun _ => inl (mkTemplate 2)) listNames fillCard.


(** The query [firstName=Ann&lastName=Lee&ExpirationDate=2024-03-15]. *)
Definition query (key : string) : list string :=
  if String.eqb key "firstName" then ["Ann"%string]
  else if String.eqb key "lastName" then ["Lee"%string]
  else if String.eqb key "ExpirationDate" then ["2024-03-15"%string]
  else [].

(** The same with the last key spelled [expirationDate], and one more. *)
Definition misspelled (key : string) : list string :=
  if String.eqb key "firstName" then ["Ann"%string]
  else if String.eqb key "lastName" then ["Lee"%string]
  else if String.eqb key "expirationDate" then ["2024-03-15"%string]
  else if String.eqb key "debug" then ["1"%string]
  else [].

End WebFixture.

(** ** Vocabulary of the further properties *)

(** The rows of [data] that the loop retains, in order; [i] is the index
    of the first row of [data]. *)
Fixpoint retainedRows (i : nat) (data : list (list string)) : list (list string) :=
  match data with
  | [] => []
  | row :: data' =>
      (if retained i row then [row] else []) ++ retainedRows (S i) data'
  end.

(** The warnings that the rows of [data] call for, in order: one for
    each retained row whose date [parseDate] cannot read, with the index
    of the row and the error of [parseDate]. *)
Fixpoint fallbacks (layouts : list string) (i : nat) (data : list (list string))
  : list Event :=
  match data with
  | [] => []
  | row :: data' =>
      (if retained i row then
         match snd (Source.parseDate layouts (index row 5)) with
         | Some e => [EvLog i e]
         | None => []
         end
       else []) ++ fallbacks layouts (S i) data'
  end.

(** What the layouts of the program read: two numbers cut by slashes
    and a year of four digits that ends the string. *)
Module Shape.
Import GoTime.

Definition slash (v : string) : option string :=
  match v with
  | String c v' => if Ascii.eqb c "/" then Some v' else None
  | EmptyString => None
  end.

Definition fourDigitYear (v : string) : option Z :=
  if (String.length v <? 4)%nat || negb (isDigit0 v) then None
  else
    match atoi (String.substring 0 4 v) with
    | Some y => if (String.length (drop 4 v) =? 0)%nat then Some y else None
    | None => None
    end.

(** [a/b/y], the numbers [a] and [b] read by [getnum]. *)
Definition threeNumbers (fixedA fixedB : bool) (v : string) : option (Z * Z * Z) :=
  match getnum v fixedA with
  | None => None
  | Some (a, v1) =>
      match slash v1 with
      | None => None
      | Some v2 =>
          match getnum v2 fixedB with
          | None => None
          | Some (b, v3) =>
              match slash v3 with
              | None => None
              | Some v4 =>
                  match fourDigitYear v4 with
                  | None => None
                  | Some y => Some (a, b, y)
                  end
              end
          end
      end
  end.

(** The date of year [y], month [m], day [d] at midnight UTC, when it
    exists. *)
Definition dateOf (y m d : Z) : option Time :=
  if (m <=? 0) || (12 <? m) then None
  else if (d <? 1) || (daysIn m y <? d) then None
  else Some (mkTime y m d 0 0 0 0 UTC).

Definition dayStd (fixed : bool) : std := if fixed then stdZeroDay else stdDay.

Definition monthStd (fixed : bool) : std :=
  if fixed then stdZeroMonth else stdNumMonth.

(** The digit [k] as a byte, and numbers written with two and with four
    digits. *)
Definition digitChar (k : Z) : ascii := ascii_of_N (Z.to_N (48 + k)).

Definition twoDigits (n : Z) : string :=
  String (digitChar (n / 10)) (String (digitChar (n mod 10)) EmptyString).

Definition fourDigits (n : Z) : string :=
  String (digitChar (n / 1000))
    (String (digitChar ((n / 100) mod 10))
       (String (digitChar ((n / 10) mod 10))
          (String (digitChar (n mod 10)) EmptyString))).

(** [d/m/y] written DD/MM/YYYY. *)
Definition writeDate (y m d : Z) : string :=
  (twoDigits d ++ "/" ++ twoDigits m ++ "/" ++ fourDigits y)%string.

(** A date of the program's layouts: an existing day, at midnight UTC,
    in a year of four digits. *)
Definition plainDate (t : Time) : Prop :=
  wellFormed t /\ 0 <= year t <= 9999
  /\ hour t = 0 /\ minute t = 0 /\ second t = 0 /\ nsec t = 0 /\ loc t = UTC.

End Shape.

(** Strings of ASCII white space: tab, line feed, vertical tab, form
    feed, carriage return, space. *)
Fixpoint blank (p : string) : bool :=
  match p with
  | EmptyString => true
  | String c p' => GoStrings.asciiSpace c && blank p'
  end.

(** [f'] is [f] with ASCII white space added around it. *)
Definition paddedField (f f' : string) : Prop :=
  exists pad pad',
    blank pad = true /\ blank pad' = true /\ f' = (pad ++ f ++ pad')%string.

(** No white-space rune at either end. *)
Definition noSpaceAround (t : string) : Prop :=
  ~ Spec.startsWithSpace t /\ ~ Spec.endsWithSpace t.

Definition tidy (m : Member) : Prop :=
  noSpaceAround (FirstName m) /\ noSpaceAround (LastName m)
  /\ noSpaceAround (Email m).

(** * Properties *)

Example TrimSpace_ex1 : GoStrings.TrimSpace "  Ann Lee	 " = "Ann Lee".
Proof. reflexivity. Qed.

Example nextStdChunk_ex1 :
  GoTime.nextStdChunk "02/01/2006" = ("", GoTime.stdZeroDay, "/01/2006")
  /\ GoTime.nextStdChunk "/01/2006" = ("/", GoTime.stdZeroMonth, "/2006")
  /\ GoTime.nextStdChunk "/2006" = ("/", GoTime.stdLongYear, "")
  /\ GoTime.nextStdChunk "2/1/2006" = ("", GoTime.stdDay, "/1/2006")
  /\ GoTime.nextStdChunk "/1/2006" = ("/", GoTime.stdNumMonth, "/2006").
Proof. repeat split. Qed.


(** [AddDate] across a zone transition: the hour that the clocks skip
    comes back one hour earlier, and on the day before when the clocks
    skip the hour after midnight. *)
Example AddDate_ex1 :
  GoTime.AddDate (GoTime.mkTime 2023 3 10 2 30 0 0 (GoTime.Local Fixture.eastern)) 1 0 0
  = GoTime.mkTime 2024 3 10 1 30 0 0 (GoTime.Local Fixture.eastern).
Proof. reflexivity. Qed.

Example AddDate_ex2 :
  GoTime.AddDate (GoTime.mkTime 2017 11 4 0 30 0 0 (GoTime.Local Fixture.southern)) 1 0 0
  = GoTime.mkTime 2018 11 3 23 30 0 0 (GoTime.Local Fixture.southern).
Proof. reflexivity. Qed.

(** ** [strings.TrimSpace] *)

Module TrimFacts.
Import GoStrings Spec.

Lemma headSpace_starts t : startsWithSpace t -> headSpace t = true.
Proof.
  intros (r & rest & Hr & ->).
  destruct r as [|c0 [|c1 [|c2 [|c3 r]]]]; simpl in Hr; try discriminate;
    simpl; rewrite ?Hr, ?orb_true_r; reflexivity.
Qed.

Lemma TrimLeftSpace_split_aux n :
  forall s, (String.length s <= n)%nat ->
    (exists pre, s = pre ++ TrimLeftSpace s /\ spaces pre)
    /\ headSpace (TrimLeftSpace s) = false.
Proof.
  induction n as [|n IH]; intros s Hn.
  - destruct s; simpl in Hn; [|lia]. split; [exists ""; split; [reflexivity|constructor]|reflexivity].
  - destruct s as [|c0 s1]; [split; [exists ""; split; [reflexivity|constructor]|reflexivity]|].
    simpl in Hn. simpl TrimLeftSpace.
    destruct (asciiSpace c0) eqn:E0.
    { destruct (IH s1 ltac:(lia)) as [(pre & Hs & Hp) Hh]. split; [|exact Hh].
      exists (String c0 pre). split; [simpl; congruence|].
      apply (spaces_app (String c0 "") pre); [apply spaces_rune; exact E0|exact Hp]. }
    destruct s1 as [|c1 s2].
    { split; [exists ""; split; [reflexivity|constructor]|simpl; rewrite E0; reflexivity]. }
    simpl in Hn.
    destruct (space2 c0 c1) eqn:E1.
    { destruct (IH s2 ltac:(lia)) as [(pre & Hs & Hp) Hh]. split; [|exact Hh].
      exists (String c0 (String c1 pre)). split; [simpl; congruence|].
      apply (spaces_app (String c0 (String c1 "")) pre); [apply spaces_rune; exact E1|exact Hp]. }
    destruct s2 as [|c2 s3].
    { split; [exists ""; split; [reflexivity|constructor]|simpl; rewrite E0, E1; reflexivity]. }
    simpl in Hn.
    destruct (space3 c0 c1 c2) eqn:E2.
    { destruct (IH s3 ltac:(lia)) as [(pre & Hs & Hp) Hh]. split; [|exact Hh].
      exists (String c0 (String c1 (String c2 pre))). split; [simpl; congruence|].
      apply (spaces_app (String c0 (String c1 (String c2 ""))) pre);
        [apply spaces_rune; exact E2|exact Hp]. }
    split; [exists ""; split; [reflexivity|constructor]|simpl; rewrite E0, E1, E2; reflexivity].
Qed.

Lemma TrimLeftSpace_split s :
  (exists pre, s = pre ++ TrimLeftSpace s /\ spaces pre)
  /\ ~ startsWithSpace (TrimLeftSpace s).
Proof.
  destruct (TrimLeftSpace_split_aux (String.length s) s (le_n _)) as [H1 H2].
  split; [exact H1|]. intros H. apply headSpace_starts in H. congruence.
Qed.

Lemma list_of_app a b :
  list_ascii_of_string (a ++ b) = (list_ascii_of_string a ++ list_ascii_of_string b)%list.
Proof. induction a; simpl; congruence. Qed.

Lemma string_of_app a b :
  string_of_list_ascii (a ++ b) = string_of_list_ascii a ++ string_of_list_ascii b.
Proof. induction a; simpl; congruence. Qed.

Lemma append_assoc (a b c : string) : (a ++ b) ++ c = a ++ (b ++ c).
Proof. induction a; simpl; congruence. Qed.

Lemma append_nil_r (a : string) : a ++ "" = a.
Proof. induction a; simpl; congruence. Qed.

Lemma headSpaceRev_ends t :
  endsWithSpace t -> headSpaceRev (rev (list_ascii_of_string t)) = true.
Proof.
  intros (r & rest & Hr & ->). rewrite list_of_app, rev_app_distr.
  destruct r as [|c0 [|c1 [|c2 [|c3 r]]]]; simpl in Hr; try discriminate;
    simpl; rewrite ?Hr, ?orb_true_r; reflexivity.
Qed.

Lemma trimRev_split_aux n :
  forall l, (List.length l <= n)%nat ->
    (exists pre, l = (pre ++ trimRev l)%list /\ spaces (string_of_list_ascii (rev pre)))
    /\ headSpaceRev (trimRev l) = false.
Proof.
  induction n as [|n IH]; intros l Hn.
  - destruct l; simpl in Hn; [|lia].
    split; [exists []; split; [reflexivity|constructor]|reflexivity].
  - destruct l as [|c0 l1]; [split; [exists []; split; [reflexivity|constructor]|reflexivity]|].
    simpl in Hn. simpl trimRev.
    destruct (asciiSpace c0) eqn:E0.
    { destruct (IH l1 ltac:(lia)) as [(pre & Hs & Hp) Hh]. split; [|exact Hh].
      exists (c0 :: pre). split; [simpl; congruence|].
      simpl rev. rewrite string_of_app.
      apply spaces_app; [exact Hp|apply spaces_rune; exact E0]. }
    destruct l1 as [|c1 l2].
    { split; [exists []; split; [reflexivity|constructor]|simpl; rewrite E0; reflexivity]. }
    simpl in Hn.
    destruct (space2 c1 c0) eqn:E1.
    { destruct (IH l2 ltac:(lia)) as [(pre & Hs & Hp) Hh]. split; [|exact Hh].
      exists (c0 :: c1 :: pre). split; [simpl; congruence|].
      simpl rev. rewrite <- app_assoc, string_of_app.
      apply spaces_app; [exact Hp|apply spaces_rune; exact E1]. }
    destruct l2 as [|c2 l3].
    { split; [exists []; split; [reflexivity|constructor]|simpl; rewrite E0, E1; reflexivity]. }
    simpl in Hn.
    destruct (space3 c2 c1 c0) eqn:E2.
    { destruct (IH l3 ltac:(lia)) as [(pre & Hs & Hp) Hh]. split; [|exact Hh].
      exists (c0 :: c1 :: c2 :: pre). split; [simpl; congruence|].
      simpl rev. rewrite <- !app_assoc, string_of_app.
      apply spaces_app; [exact Hp|apply spaces_rune; exact E2]. }
    split; [exists []; split; [reflexivity|constructor]|simpl; rewrite E0, E1, E2; reflexivity].
Qed.

Lemma TrimRightSpace_split s :
  (exists post, s = TrimRightSpace s ++ post /\ spaces post)
  /\ ~ endsWithSpace (TrimRightSpace s).
Proof.
  unfold TrimRightSpace.
  destruct (trimRev_split_aux _ (rev (list_ascii_of_string s)) (le_n _))
    as [(pre & Hs & Hp) Hh].
  split.
  - exists (string_of_list_ascii (rev pre)). split; [|exact Hp].
    rewrite <- string_of_app, <- rev_app_distr, <- Hs, rev_involutive.
    symmetry. apply string_of_list_ascii_of_string.
  - intros H. apply headSpaceRev_ends in H.
    rewrite list_ascii_of_string_of_list_ascii, rev_involutive in H. congruence.
Qed.

(** [TrimSpace s] is [s] without the white space around it. *)
Lemma TrimSpace_trimmed s : trimmed (TrimSpace s) s.
Proof.
  unfold TrimSpace.
  destruct (TrimLeftSpace_split s) as [(pre & Hs & Hpre) Hstart].
  destruct (TrimRightSpace_split (TrimLeftSpace s)) as [(post & Ht & Hpost) Hend].
  split; [|split].
  - exists pre, post. split; [|split; assumption]. congruence.
  - intros (r & rest & Hr & Heq). apply Hstart.
    exists r, (rest ++ post). split; [exact Hr|].
    rewrite Ht at 1. rewrite Heq. apply append_assoc.
  - exact Hend.
Qed.

End TrimFacts.

(** ** Package [time] *)

Module TimeFacts.
Import GoTime Spec.

Lemma month_cases m :
  1 <= m <= 12 ->
  m = 1 \/ m = 2 \/ m = 3 \/ m = 4 \/ m = 5 \/ m = 6 \/
  m = 7 \/ m = 8 \/ m = 9 \/ m = 10 \/ m = 11 \/ m = 12.
Proof. lia. Qed.

Ltac each_month H :=
  apply month_cases in H;
  repeat (destruct H as [H|H]); subst.

Lemma daysIn_bounds m y : 1 <= m <= 12 -> 28 <= daysIn m y <= 31.
Proof.
  intros H. unfold daysIn. each_month H; simpl;
    try (destruct (isLeap y)); vm_compute; split; discriminate.
Qed.

Lemma daysIn_feb y : daysIn 2 y = if isLeap y then 29 else 28.
Proof. unfold daysIn. destruct (isLeap y); reflexivity. Qed.

Lemma isLeap_next y : isLeap y = true -> isLeap (y + 1) = false.
Proof.
  unfold isLeap. intros H.
  apply andb_true_iff in H. destruct H as [H _]. apply Z.eqb_eq in H.
  apply andb_false_iff. left. apply Z.eqb_neq.
  apply Z.rem_divide in H; [|discriminate]. destruct H as [k Hk].
  intros H'. apply Z.rem_divide in H'; [|discriminate]. destruct H' as [k' Hk'].
  lia.
Qed.

(** Only February changes length from one year to the next. *)
Lemma daysIn_year m y y' : m <> 2 -> daysIn m y = daysIn m y'.
Proof.
  intros H. unfold daysIn. apply Z.eqb_neq in H. rewrite H. reflexivity.
Qed.

Lemma norm_in_range hi lo base :
  0 <= lo < base -> norm hi lo base = (hi, lo).
Proof.
  intros H. unfold norm.
  destruct (lo <? 0) eqn:E1; [apply Z.ltb_lt in E1; lia|].
  destruct (base <=? lo) eqn:E2; [apply Z.leb_le in E2; lia|reflexivity].
Qed.

Lemma rollDay_in_range fuel y m d :
  1 <= d <= daysIn m y -> rollDay fuel y m d = (y, m, d).
Proof.
  intros H. destruct fuel as [|k]; [reflexivity|]. cbn [rollDay].
  destruct (d <? 1) eqn:E1; [apply Z.ltb_lt in E1; lia|].
  destruct (daysIn m y <? d) eqn:E2; [apply Z.ltb_lt in E2; lia|reflexivity].
Qed.

Lemma rollDay_step k y m d :
  rollDay (S k) y m d =
    if d <? 1 then
      let '(py, pm) := if m =? 1 then (y - 1, 12) else (y, m - 1) in
      rollDay k py pm (d + daysIn pm py)
    else if daysIn m y <? d then
      let '(ny, nm) := if m =? 12 then (y + 1, 1) else (y, m + 1) in
      rollDay k ny nm (d - daysIn m y)
    else (y, m, d).
Proof. reflexivity. Qed.

(** [Date] of a date and clock in range is that date and clock,
    resolved in the location. *)
Lemma Date_in_range y m d h mi s ns l :
  wellFormed (mkTime y m d h mi s ns l) ->
  Date y m d h mi s ns l = resolve l y m d h mi s ns.
Proof.
  unfold wellFormed; simpl. intros (Hm & Hd & Hh & Hmi & Hs & Hns).
  unfold Date.
  rewrite (norm_in_range y (m - 1) 12) by lia.
  rewrite (norm_in_range s ns) by lia.
  rewrite (norm_in_range mi s) by lia.
  rewrite (norm_in_range h mi) by lia.
  rewrite (norm_in_range d h) by lia.
  replace (m - 1 + 1) with m by lia.
  rewrite rollDay_in_range by lia. reflexivity.
Qed.

(** [norm] brings [lo] into [0, base). *)
Lemma norm_range hi lo base :
  0 < base -> 0 <= snd (norm hi lo base) < base.
Proof.
  intros Hb. unfold norm.
  destruct (lo <? 0) eqn:E1.
  - apply Z.ltb_lt in E1.
    pose proof (Z.div_mod (- lo - 1) base ltac:(lia)) as Hq.
    pose proof (Z.mod_pos_bound (- lo - 1) base Hb) as Hr.
    set (q := (- lo - 1) / base) in *.
    assert (Hin : 0 <= lo + (q + 1) * base < base) by nia.
    destruct (base <=? lo + (q + 1) * base) eqn:E2;
      [apply Z.leb_le in E2; lia|exact Hin].
  - apply Z.ltb_ge in E1.
    destruct (base <=? lo) eqn:E2; simpl.
    + pose proof (Z.div_mod lo base ltac:(lia)) as Hq.
      pose proof (Z.mod_pos_bound lo base Hb) as Hr. nia.
    + apply Z.leb_gt in E2. lia.
Qed.

(** With fuel above [|d|], [rollDay] ends on a day of the month. *)
Lemma rollDay_valid fuel :
  forall y m d,
    1 <= m <= 12 -> Z.abs d < Z.of_nat fuel ->
    let '(y', m', d') := rollDay fuel y m d in
    1 <= m' <= 12 /\ 1 <= d' <= daysIn m' y'.
Proof.
  induction fuel as [|k IH]; intros y m d Hm Hd; [lia|].
  rewrite rollDay_step.
  destruct (d <? 1) eqn:E1.
  - apply Z.ltb_lt in E1.
    set (pm := if m =? 1 then 12 else m - 1).
    set (py := if m =? 1 then y - 1 else y).
    assert (Hpm : 1 <= pm <= 12)
      by (unfold pm; destruct (m =? 1) eqn:F; [lia|apply Z.eqb_neq in F; lia]).
    replace (let '(py0, pm0) := if m =? 1 then (y - 1, 12) else (y, m - 1) in
             rollDay k py0 pm0 (d + daysIn pm0 py0))
      with (rollDay k py pm (d + daysIn pm py))
      by (unfold py, pm; destruct (m =? 1); reflexivity).
    pose proof (daysIn_bounds pm py Hpm) as Hb.
    destruct (Z.le_gt_cases 1 (d + daysIn pm py)) as [Hin|Hout].
    + rewrite rollDay_in_range by lia. split; [exact Hpm|lia].
    + apply IH; [exact Hpm|lia].
  - apply Z.ltb_ge in E1.
    destruct (daysIn m y <? d) eqn:E2.
    + apply Z.ltb_lt in E2.
      set (nm := if m =? 12 then 1 else m + 1).
      set (ny := if m =? 12 then y + 1 else y).
      assert (Hnm : 1 <= nm <= 12)
        by (unfold nm; destruct (m =? 12) eqn:F; [lia|apply Z.eqb_neq in F; lia]).
      replace (let '(ny0, nm0) := if m =? 12 then (y + 1, 1) else (y, m + 1) in
               rollDay k ny0 nm0 (d - daysIn m y))
        with (rollDay k ny nm (d - daysIn m y))
        by (unfold ny, nm; destruct (m =? 12); reflexivity).
      pose proof (daysIn_bounds m y Hm) as Hb.
      apply IH; [exact Hnm|lia].
    + apply Z.ltb_ge in E2. split; [exact Hm|lia].
Qed.

(** In [UTC], [Date] returns a date and a clock that exist, whatever it
    is given. *)
Lemma Date_wellFormed y m d h mi s ns :
  wellFormed (Date y m d h mi s ns UTC).
Proof.
  unfold Date.
  pose proof (norm_range y (m - 1) 12 ltac:(lia)) as H1.
  destruct (norm y (m - 1) 12) as [y1 m0]. simpl in H1.
  pose proof (norm_range s ns 1000000000 ltac:(lia)) as H2.
  destruct (norm s ns 1000000000) as [s1 ns1]. simpl in H2.
  pose proof (norm_range mi s1 60 ltac:(lia)) as H3.
  destruct (norm mi s1 60) as [mi1 s2]. simpl in H3.
  pose proof (norm_range h mi1 60 ltac:(lia)) as H4.
  destruct (norm h mi1 60) as [h1 mi2]. simpl in H4.
  pose proof (norm_range d h1 24 ltac:(lia)) as H5.
  destruct (norm d h1 24) as [d1 h2]. simpl in H5.
  pose proof (rollDay_valid (S (Z.to_nat (Z.abs d1))) y1 (m0 + 1) d1
                ltac:(lia) ltac:(lia)) as H6.
  destruct (rollDay (S (Z.to_nat (Z.abs d1))) y1 (m0 + 1) d1) as [[y2 m2] d2].
  unfold wellFormed; simpl. lia.
Qed.

(** One year added: the same month, day and clock a year later, and
    March 1 for February 29, resolved in the location of the time. *)
Lemma AddDate_one_year t :
  wellFormed t ->
  AddDate t 1 0 0 =
    if isFeb29 t
    then resolve (loc t) (year t + 1) 3 1 (hour t) (minute t) (second t) (nsec t)
    else resolve (loc t) (year t + 1) (month t) (day t)
                 (hour t) (minute t) (second t) (nsec t).
Proof.
  destruct t as [y m d h mi s ns l].
  unfold wellFormed, AddDate, isFeb29; simpl.
  intros (Hm & Hd & Hh & Hmi & Hs & Hns).
  replace (m + 0) with m by lia. replace (d + 0) with d by lia.
  destruct ((m =? 2) && (d =? 29)) eqn:E.
  - apply andb_true_iff in E. destruct E as [E1 E2].
    apply Z.eqb_eq in E1, E2. subst m d.
    assert (L : isLeap y = true).
    { rewrite daysIn_feb in Hd. destruct (isLeap y); [reflexivity|lia]. }
    apply isLeap_next in L.
    unfold Date.
    rewrite (norm_in_range (y + 1) (2 - 1) 12) by lia.
    rewrite (norm_in_range s ns) by lia.
    rewrite (norm_in_range mi s) by lia.
    rewrite (norm_in_range h mi) by lia.
    rewrite (norm_in_range 29 h) by lia.
    change (2 - 1 + 1) with 2.
    assert (D : daysIn 2 (y + 1) = 28) by (rewrite daysIn_feb, L; reflexivity).
    rewrite rollDay_step. change (29 <? 1) with false. cbv iota.
    rewrite D. change (28 <? 29) with true. cbv iota.
    change (2 =? 12) with false. cbv iota.
    rewrite rollDay_in_range; [reflexivity|].
    change (2 + 1) with 3. change (29 - 28) with 1.
    pose proof (daysIn_bounds 3 (y + 1) ltac:(lia)). lia.
  - apply Date_in_range. unfold wellFormed; simpl.
    repeat split; try lia.
    destruct (Z.eq_dec m 2) as [->|Hne].
    + simpl in E. apply Z.eqb_neq in E.
      pose proof (daysIn_bounds 2 (y + 1) ltac:(lia)).
      rewrite daysIn_feb in Hd. destruct (isLeap y); lia.
    + rewrite (daysIn_year m (y + 1) y) by exact Hne. lia.
Qed.

Lemma resolve_loc l y m d h mi s ns : loc (resolve l y m d h mi s ns) = l.
Proof. destruct l; reflexivity. Qed.

(** One year added, where the location keeps the day: the same month
    and day a year later, and March 1 for February 29. *)
Lemma AddDate_calendar t :
  wellFormed t -> keepsDay t ->
  if isFeb29 t then marchFirstNextYear t (AddDate t 1 0 0)
  else sameDayNextYear t (AddDate t 1 0 0).
Proof.
  intros W K. rewrite (AddDate_one_year t W).
  unfold keepsDay, wallYearOn in K.
  unfold marchFirstNextYear, sameDayNextYear, resolve.
  destruct (loc t) as [|zone]; destruct (isFeb29 t); cbn in *;
    try (repeat split; reflexivity); exact K.
Qed.

End TimeFacts.

(** ** [time.Parse] returns dates that exist *)

Module ParseFacts.
Import GoTime Spec.

Lemma parseLoop_month fuel :
  forall layout value y m d y' m' d',
    monthField m ->
    parseLoop fuel layout value y m d = Some (y', m', d') ->
    monthField m'.
Proof.
  induction fuel as [|k IH]; intros layout value y m d y' m' d' Hm H;
    [discriminate|].
  cbn [parseLoop] in H.
  destruct (nextStdChunk layout) as [[prefix s] suffix].
  destruct (skip value prefix) as [value1|]; [|discriminate].
  destruct s.
  - destruct (String.length value1 =? 0)%nat; [|discriminate].
    inversion H; subst; exact Hm.
  - destruct ((String.length value1 <? 4)%nat || negb (isDigit0 value1));
      [discriminate|].
    destruct (atoi (substring 0 4 value1)) as [y1|]; [|discriminate].
    eapply IH; eassumption.
  - destruct (getnum value1 true) as [[m1 value2]|]; [|discriminate].
    destruct ((m1 <=? 0) || (12 <? m1)) eqn:E; [discriminate|].
    apply orb_false_iff in E. destruct E as [E1 E2].
    apply Z.leb_gt in E1. apply Z.ltb_ge in E2.
    eapply IH; [|eassumption]. right; lia.
  - destruct (getnum value1 false) as [[m1 value2]|]; [|discriminate].
    destruct ((m1 <=? 0) || (12 <? m1)) eqn:E; [discriminate|].
    apply orb_false_iff in E. destruct E as [E1 E2].
    apply Z.leb_gt in E1. apply Z.ltb_ge in E2.
    eapply IH; [|eassumption]. right; lia.
  - destruct (getnum value1 true) as [[d1 value2]|]; [|discriminate].
    eapply IH; eassumption.
  - destruct (getnum value1 false) as [[d1 value2]|]; [|discriminate].
    eapply IH; eassumption.
  - discriminate.
Qed.

(** *** [Parse] never runs out of fuel *)

Lemma length_drop n :
  forall s, String.length (drop n s) = (String.length s - n)%nat.
Proof.
  induction n as [|n IH]; intros s; simpl.
  - lia.
  - destruct s as [|c s]; simpl; [reflexivity|apply IH].
Qed.

Lemma chunkAt_shorter layout s suffix :
  chunkAt layout = Some (s, suffix) ->
  (String.length suffix < String.length layout)%nat.
Proof.
  destruct layout as [|c rest]; [discriminate|].
  unfold chunkAt.
  destruct (isByte c "0").
  { destruct rest as [|c1 rest1]; [discriminate|].
    destruct (isByte c1 "1"); [intros H; inversion H; subst; simpl; lia|].
    destruct (isByte c1 "2"); [intros H; inversion H; subst; simpl; lia|].
    destruct (oneOf c1 "3456"); [intros H; inversion H; subst; simpl; lia|].
    destruct (isByte c1 "0"); [|discriminate].
    destruct rest1 as [|c2 rest2]; [discriminate|].
    destruct (isByte c2 "2"); [|discriminate].
    intros H; inversion H; subst; simpl; lia. }
  destruct (isByte c "1").
  { destruct rest as [|c1 rest1]; [intros H; inversion H; subst; simpl; lia|].
    destruct (isByte c1 "5"); intros H; inversion H; subst; simpl; lia. }
  destruct (isByte c "2").
  { destruct (isPrefix "2006" (String c rest)).
    - intros H. assert (Hs : suffix = drop 4 (String c rest)) by congruence.
      rewrite Hs, length_drop. simpl. lia.
    - intros H; inversion H; subst; simpl; lia. }
  destruct (oneOf c "JM_345Pp-Z.,"); [|discriminate].
  intros H; inversion H; subst; simpl; lia.
Qed.

Lemma nextStdChunk_shorter layout :
  forall prefix s suffix,
    nextStdChunk layout = (prefix, s, suffix) ->
    s <> stdNone ->
    (String.length suffix < String.length layout)%nat.
Proof.
  induction layout as [|c rest IH]; intros prefix s suffix H Hs.
  - inversion H; subst. congruence.
  - cbn [nextStdChunk] in H.
    destruct (chunkAt (String c rest)) as [[s' suffix']|] eqn:E.
    + inversion H; subst. exact (chunkAt_shorter _ _ _ E).
    + destruct (nextStdChunk rest) as [[p1 s1] suf1] eqn:N.
      inversion H; subst.
      pose proof (IH _ _ _ eq_refl Hs). simpl. lia.
Qed.

(** Above the length of the layout, the fuel does not matter: [Parse]
    fails only where Go's does. *)
Lemma parseLoop_fuel fuel1 :
  forall fuel2 layout value y m d,
    (String.length layout < fuel1)%nat ->
    (String.length layout < fuel2)%nat ->
    parseLoop fuel1 layout value y m d = parseLoop fuel2 layout value y m d.
Proof.
  induction fuel1 as [|k1 IH]; intros fuel2 layout value y m d H1 H2; [lia|].
  destruct fuel2 as [|k2]; [lia|].
  cbn [parseLoop].
  destruct (nextStdChunk layout) as [[prefix s] suffix] eqn:N.
  destruct (skip value prefix) as [value1|]; [|reflexivity].
  assert (L : s <> stdNone ->
              (String.length suffix < k1)%nat /\ (String.length suffix < k2)%nat).
  { intros Hs. pose proof (nextStdChunk_shorter _ _ _ _ N Hs). lia. }
  destruct s; try reflexivity.
  - destruct ((String.length value1 <? 4)%nat || negb (isDigit0 value1));
      [reflexivity|].
    destruct (atoi (substring 0 4 value1)) as [y1|]; [|reflexivity].
    apply IH; apply L; discriminate.
  - destruct (getnum value1 true) as [[m1 value2]|]; [|reflexivity].
    destruct ((m1 <=? 0) || (12 <? m1)); [reflexivity|].
    apply IH; apply L; discriminate.
  - destruct (getnum value1 false) as [[m1 value2]|]; [|reflexivity].
    destruct ((m1 <=? 0) || (12 <? m1)); [reflexivity|].
    apply IH; apply L; discriminate.
  - destruct (getnum value1 true) as [[d1 value2]|]; [|reflexivity].
    apply IH; apply L; discriminate.
  - destruct (getnum value1 false) as [[d1 value2]|]; [|reflexivity].
    apply IH; apply L; discriminate.
Qed.

(** A parsed time is an existing calendar date at midnight UTC. *)
Lemma Parse_wellFormed layout value t :
  Parse layout value = Some t -> wellFormed t.
Proof.
  unfold Parse.
  destruct (parseLoop _ layout value 0 (-1) (-1)) as [[[y m] d]|] eqn:E;
    [|discriminate].
  apply parseLoop_month in E; [|left; reflexivity].
  set (m1 := if m <? 0 then 1 else m).
  set (d1 := if d <? 0 then 1 else d).
  destruct ((d1 <? 1) || (daysIn m1 y <? d1)) eqn:G; [discriminate|].
  apply orb_false_iff in G. destruct G as [G1 G2].
  apply Z.ltb_ge in G1, G2.
  assert (Hm : 1 <= m1 <= 12).
  { unfold m1. destruct E as [->|E]; [simpl; lia|].
    destruct (m <? 0) eqn:F; [lia|exact E]. }
  assert (W : wellFormed (mkTime y m1 d1 0 0 0 0 UTC)).
  { unfold wellFormed; simpl. repeat split; lia. }
  intros H. inversion H; subst t. rewrite TimeFacts.Date_in_range by exact W. exact W.
Qed.

Lemma Parse_UTC layout value t :
  Parse layout value = Some t -> loc t = UTC.
Proof.
  unfold Parse.
  destruct (parseLoop _ layout value 0 (-1) (-1)) as [[[y m] d]|];
    [|discriminate].
  destruct (_ || _); [discriminate|].
  intros H. inversion H. unfold Date.
  repeat match goal with
         | |- context [let '(_, _) := ?n in _] => destruct n
         end.
  apply TimeFacts.resolve_loc.
Qed.

End ParseFacts.

(** ** The row loop *)

Module LoopFacts.
Section Loop.

Local Open Scope list_scope.

Variable w : World.
Variable layouts : list string.

Local Abbreviation rowsLoop := (Source.rowsLoop w layouts).
Local Abbreviation parseDate := (Source.parseDate layouts).

Lemma index_in_range (row : list string) (k : nat) :
  (List.length row <? 6)%nat = false -> (k <= 5)%nat ->
  nth_error row k = Some (index row k).
Proof.
  intros H Hk. apply Nat.ltb_ge in H.
  apply nth_error_nth'. lia.
Qed.

Lemma rowsLoop_skip i row data members st :
  retained i row = false ->
  rowsLoop i (row :: data) members st = rowsLoop (S i) data members st.
Proof.
  unfold retained. intros H. apply negb_false_iff in H.
  cbn [Source.rowsLoop]. rewrite H. reflexivity.
Qed.

Lemma rowsLoop_parsed i row data members st t :
  retained i row = true ->
  parseDate (index row 5) = (t, None) ->
  rowsLoop i (row :: data) members st =
  rowsLoop (S i) data (members ++ [memberOf row t]) st.
Proof.
  unfold retained. intros H P. apply negb_true_iff in H.
  cbn [Source.rowsLoop]. rewrite H, P. reflexivity.
Qed.

Lemma rowsLoop_fallback i row data members st t e :
  retained i row = true ->
  parseDate (index row 5) = (t, Some e) ->
  rowsLoop i (row :: data) members st =
  rowsLoop (S i) data (members ++ [memberOf row (Now w (ticks st))])
           (afterFallback i e st).
Proof.
  unfold retained. intros H P. apply negb_true_iff in H.
  cbn [Source.rowsLoop]. rewrite H, P. reflexivity.
Qed.

(** The members found so far are only ever appended to. *)
Lemma rowsLoop_acc data :
  forall i members st,
    rowsLoop i data members st =
    (members ++ fst (rowsLoop i data [] st), snd (rowsLoop i data [] st)).
Proof.
  induction data as [|row data IH]; intros i members st.
  - simpl. unfold ret. simpl. rewrite app_nil_r. reflexivity.
  - destruct (retained i row) eqn:R.
    + destruct (parseDate (index row 5)) as [t [e|]] eqn:P.
      * rewrite !(rowsLoop_fallback _ _ _ _ _ _ _ R P).
        rewrite (IH _ (members ++ _)), (IH _ ([] ++ _)).
        simpl. rewrite <- app_assoc. reflexivity.
      * rewrite !(rowsLoop_parsed _ _ _ _ _ _ R P).
        rewrite (IH _ (members ++ _)), (IH _ ([] ++ _)).
        simpl. rewrite <- app_assoc. reflexivity.
    + rewrite !(rowsLoop_skip _ _ _ _ _ R). apply IH.
Qed.

(** The loop over [xs ++ ys] is the loop over [xs], then over [ys]. *)
Lemma rowsLoop_app xs :
  forall ys i members st,
    rowsLoop i (xs ++ ys) members st =
    rowsLoop (i + List.length xs) ys
             (fst (rowsLoop i xs members st)) (snd (rowsLoop i xs members st)).
Proof.
  induction xs as [|row xs IH]; intros ys i members st.
  - simpl. rewrite Nat.add_0_r. reflexivity.
  - simpl List.length. replace (i + S (List.length xs))%nat
      with (S i + List.length xs)%nat by lia.
    rewrite <- app_comm_cons.
    destruct (retained i row) eqn:R.
    + destruct (parseDate (index row 5)) as [t [e|]] eqn:P.
      * rewrite !(rowsLoop_fallback _ _ _ _ _ _ _ R P). apply IH.
      * rewrite !(rowsLoop_parsed _ _ _ _ _ _ R P). apply IH.
    + rewrite !(rowsLoop_skip _ _ _ _ _ R). apply IH.
Qed.


End Loop.
End LoopFacts.

(** ** [parseDate] and [readCSVFromUrl] *)

Module PipelineFacts.
Section Pipeline.

Local Open Scope list_scope.

Variable w : World.
Variable layouts : list string.

Local Abbreviation readCSVFromUrl := (Source.readCSVFromUrl w layouts).

Lemma tryLayouts_first tried :
  forall layout rest s t,
    Forall (fun l => GoTime.Parse l s = None) tried ->
    GoTime.Parse layout s = Some t ->
    Source.tryLayouts (tried ++ layout :: rest) s = (t, None).
Proof.
  induction tried as [|l tried IH]; intros layout rest s t Hnone Hsome.
  - simpl. rewrite Hsome. reflexivity.
  - inversion Hnone as [|? ? Hl Htried]; subst.
    simpl. rewrite Hl. apply IH; assumption.
Qed.


(** A time that [parseDate] returns without error was parsed by one of
    the layouts. *)
Lemma tryLayouts_parsed ls :
  forall s t,
    Source.tryLayouts ls s = (t, None) ->
    exists layout, In layout ls /\ GoTime.Parse layout s = Some t.
Proof.
  induction ls as [|l ls IH]; intros s t H.
  - discriminate.
  - simpl in H. destruct (GoTime.Parse l s) as [t'|] eqn:E.
    + inversion H; subst. exists l. split; [left; reflexivity|exact E].
    + destruct (IH s t H) as (layout & Hin & Hp).
      exists layout. split; [right; exact Hin|exact Hp].
Qed.

Lemma parseDate_wellFormed dateStr t :
  Source.parseDate layouts dateStr = (t, None) -> GoTime.wellFormed t.
Proof.
  unfold Source.parseDate. intros H.
  apply tryLayouts_parsed in H. destruct H as (layout & _ & Hp).
  eapply ParseFacts.Parse_wellFormed; eassumption.
Qed.

Lemma parseDate_UTC dateStr t :
  Source.parseDate layouts dateStr = (t, None) -> GoTime.loc t = GoTime.UTC.
Proof.
  unfold Source.parseDate. intros H.
  apply tryLayouts_parsed in H. destruct H as (layout & _ & Hp).
  eapply ParseFacts.Parse_UTC; eassumption.
Qed.

Lemma readCSVFromUrl_unreachable url st e :
  Get w url = inr e ->
  readCSVFromUrl url st = (([], Some e), sent url st).
Proof.
  intros H. unfold Source.readCSVFromUrl, Source.http_Get, bind, emit, ret.
  rewrite H. reflexivity.
Qed.

Lemma readCSVFromUrl_malformed url st resp e :
  Get w url = inl resp ->
  ReadAll w (Body resp) = inr e ->
  readCSVFromUrl url st = (([], Some e), closed (sent url st)).
Proof.
  intros H1 H2.
  unfold Source.readCSVFromUrl, Source.http_Get, Source.Body_Close, bind, emit, ret.
  rewrite H1, H2. reflexivity.
Qed.

Lemma readCSVFromUrl_decoded url st resp data :
  Get w url = inl resp ->
  ReadAll w (Body resp) = inl data ->
  readCSVFromUrl url st =
    ((fst (normalize w layouts data (sent url st)), None),
     closed (snd (normalize w layouts data (sent url st)))).
Proof.
  intros H1 H2.
  unfold Source.readCSVFromUrl, Source.http_Get, Source.Body_Close, bind, emit, ret.
  rewrite H1, H2. unfold normalize, sent, closed.
  destruct (Source.rowsLoop w layouts 0 data [] _) as [ms st']. reflexivity.
Qed.

(** Every member the loop adds is [dated]. *)
Lemma rowsLoop_dated data :
  (forall n, GoTime.wellFormed (Now w n)) ->
  forall i members st,
    Forall dated members ->
    Forall dated (fst (Source.rowsLoop w layouts i data members st)).
Proof.
  intros Hnow. induction data as [|row data IH]; intros i members st Hms.
  - exact Hms.
  - destruct (retained i row) eqn:R.
    + destruct (Source.parseDate layouts (index row 5)) as [t [e|]] eqn:P.
      * rewrite (LoopFacts.rowsLoop_fallback _ _ _ _ _ _ _ _ _ R P). apply IH.
        apply Forall_app. split; [exact Hms|].
        constructor; [|constructor]. split; [apply Hnow|reflexivity].
      * rewrite (LoopFacts.rowsLoop_parsed _ _ _ _ _ _ _ _ R P). apply IH.
        apply Forall_app. split; [exact Hms|].
        constructor; [|constructor].
        split; [exact (parseDate_wellFormed _ _ P)|reflexivity].
    + rewrite (LoopFacts.rowsLoop_skip _ _ _ _ _ _ _ R). apply IH. exact Hms.
Qed.

(** Every join date was parsed from a string or read from the clock. *)
Lemma rowsLoop_origin data :
  forall i members st,
    Forall (fromFeedOrClock w layouts) members ->
    Forall (fromFeedOrClock w layouts)
           (fst (Source.rowsLoop w layouts i data members st)).
Proof.
  induction data as [|row data IH]; intros i members st Hms.
  - exact Hms.
  - destruct (retained i row) eqn:R.
    + destruct (Source.parseDate layouts (index row 5)) as [t [e|]] eqn:P.
      * rewrite (LoopFacts.rowsLoop_fallback _ _ _ _ _ _ _ _ _ R P). apply IH.
        apply Forall_app. split; [exact Hms|].
        constructor; [|constructor]. right. exists (ticks st). reflexivity.
      * rewrite (LoopFacts.rowsLoop_parsed _ _ _ _ _ _ _ _ R P). apply IH.
        apply Forall_app. split; [exact Hms|].
        constructor; [|constructor]. left. exists (index row 5). exact P.
    + rewrite (LoopFacts.rowsLoop_skip _ _ _ _ _ _ _ R). apply IH. exact Hms.
Qed.


End Pipeline.

(** The loop reads the world through its clock only. *)
Lemma rowsLoop_ext (w1 w2 : World) (layouts : list string) data :
  (forall n, Now w1 n = Now w2 n) ->
  forall i members st,
    Source.rowsLoop w1 layouts i data members st =
    Source.rowsLoop w2 layouts i data members st.
Proof.
  intros Hnow. induction data as [|row data IH]; intros i members st.
  - reflexivity.
  - destruct (retained i row) eqn:R.
    + destruct (Source.parseDate layouts (index row 5)) as [t [e|]] eqn:P.
      * rewrite !(LoopFacts.rowsLoop_fallback _ _ _ _ _ _ _ _ _ R P).
        rewrite Hnow. apply IH.
      * rewrite !(LoopFacts.rowsLoop_parsed _ _ _ _ _ _ _ _ R P). apply IH.
    + rewrite !(LoopFacts.rowsLoop_skip _ _ _ _ _ _ _ R). apply IH.
Qed.

Lemma retained_later (before : list (list string)) (row : list string) :
  before <> [] -> (6 <= List.length row)%nat ->
  retained (0 + List.length before) row = true.
Proof.
  intros Hb Hr. unfold retained.
  destruct before as [|b before]; [congruence|]. simpl.
  destruct (List.length row <? 6)%nat eqn:E; [apply Nat.ltb_lt in E; lia|reflexivity].
Qed.

(** The loop at a retained row that follows the rows [before]. *)
Lemma normalize_at_retained (w : World) (layouts : list string)
  (before : list (list string)) (row : list string)
  (after : list (list string)) (st : State) :
  before <> [] -> (6 <= List.length row)%nat ->
  let ms0 := fst (normalize w layouts before st) in
  let st0 := snd (normalize w layouts before st) in
  normalize w layouts (before ++ row :: after) st =
    match Source.parseDate layouts (index row 5) with
    | (t, None) =>
        Source.rowsLoop w layouts (S (List.length before)) after
          (ms0 ++ [memberOf row t]) st0
    | (_, Some e) =>
        Source.rowsLoop w layouts (S (List.length before)) after
          (ms0 ++ [memberOf row (Now w (ticks st0))])
          (afterFallback (List.length before) e st0)
    end.
Proof.
  intros Hb Hr ms0 st0. unfold normalize.
  rewrite LoopFacts.rowsLoop_app.
  pose proof (retained_later before row Hb Hr) as R.
  destruct (Source.parseDate layouts (index row 5)) as [t [e|]] eqn:P.
  - rewrite (LoopFacts.rowsLoop_fallback _ _ _ _ _ _ _ _ _ R P). reflexivity.
  - rewrite (LoopFacts.rowsLoop_parsed _ _ _ _ _ _ _ _ R P). reflexivity.
Qed.

Lemma leapClock_wellFormed (n : nat) : GoTime.wellFormed (Fixture.leapClock n).
Proof.
  unfold GoTime.wellFormed, Fixture.leapClock; simpl.
  pose proof (Z.mod_pos_bound (Z.of_nat n) 60 ltac:(lia)).
  change (GoTime.daysIn 2 2024) with 29. lia.
Qed.

End PipelineFacts.

(** ** The field count of [ReadAll] *)

Module CsvFacts.

Local Open Scope list_scope.

(** Once the field count is set, a record with another number of
    fields ends [ReadAll] with [ErrFieldCount]. *)
Lemma readRecords_mismatch input :
  forall fpr last records l row,
    0 < fpr -> In (l, row) input -> Z.of_nat (List.length row) <> fpr ->
    exists l',
      GoCsv.readRecords fpr input last records = inr (GoCsv.fieldCountError l').
Proof.
  induction input as [|[l0 dst] input IH]; intros fpr last records l row Hf Hin Hne.
  - destruct Hin.
  - cbn [GoCsv.readRecords].
    assert (F : (0 <? fpr) = true) by (apply Z.ltb_lt; exact Hf). rewrite F.
    destruct (Z.of_nat (List.length dst) =? fpr) eqn:E; cbn [negb].
    + destruct Hin as [Heq|Hin].
      * inversion Heq; subst. apply Z.eqb_eq in E. contradiction.
      * exact (IH fpr last _ l row Hf Hin Hne).
    + exists l0. reflexivity.
Qed.

(** The first record sets the field count. *)
Lemma ReadAll_header parse body l0 header rest last :
  parse body = ((l0, header) :: rest, last) ->
  GoCsv.ReadAll parse body =
    GoCsv.readRecords (Z.of_nat (List.length header)) rest last [header].
Proof.
  intros H. unfold GoCsv.ReadAll. rewrite H. reflexivity.
Qed.

End CsvFacts.


(** * The ingestion pipeline against its specification *)

Section Conformance.

Import GoStrings GoTime Spec.
Local Open Scope list_scope.

(** C7.  The feed of the specification's end-to-end example (a header
    of six fields, Ann Lee's row of six fields dated 15/03/2023 and a
    row of four fields) gives no record: [ReadAll] refuses the third
    record, which has not as many fields as the first, and
    [readCSVFromUrl] returns that error, "record on line 3: wrong number
    of fields" when the records are on the lines 1, 2 and 3, and no
    member.  The loop that would skip the short row is not reached.  This
    holds for both layout lists. *)
Theorem three_row_feed_is_refused
  (w : World) (parse : string -> list (nat * list string) * option error)
  (url : string) (resp : Response) (st : State) (l1 l2 l3 : nat) :
  decodes w parse ->
  Get w url = inl resp ->
  parse (Body resp) =
    ([ (l1, ["H1"; "H2"; "H3"; "H4"; "H5"; "H6"]);
       (l2, ["x"; "Ann"; "Lee"; "ann@x.com"; "y"; "15/03/2023"]);
       (l3, ["x"; "Bo"; "Kim"; "bo@x.com"]) ], None) ->
  Membershipship.readCSVFromUrl w url st =
    (([], Some (GoCsv.fieldCountError l3)), closed (sent url st))
  /\ Revision.readCSVFromUrl w url st =
    (([], Some (GoCsv.fieldCountError l3)), closed (sent url st))
  /\ GoCsv.fieldCountError 3 = CsvError "record on line 3: wrong number of fields".
Proof.
  intros Hd HG HP.
  assert (HR : ReadAll w (Body resp) = inr (GoCsv.fieldCountError l3)).
  { rewrite Hd. unfold GoCsv.ReadAll. rewrite HP. reflexivity. }
  split; [|split].
  - exact (PipelineFacts.readCSVFromUrl_malformed w _ _ _ _ _ HG HR).
  - exact (PipelineFacts.readCSVFromUrl_malformed w _ _ _ _ _ HG HR).
  - reflexivity.
Qed.

Lemma three_row_feed_is_refused_witness :
  Ragged.plainRecords Ragged.threeRows =
    ([ (1%nat, ["H1"; "H2"; "H3"; "H4"; "H5"; "H6"]);
       (2%nat, ["x"; "Ann"; "Lee"; "ann@x.com"; "y"; "15/03/2023"]);
       (3%nat, ["x"; "Bo"; "Kim"; "bo@x.com"]) ], None)
  /\ Membershipship.readCSVFromUrl Ragged.world Fixture.feed Fixture.start =
     (([], Some (CsvError "record on line 3: wrong number of fields")),
      mkState 0 [EvGet Fixture.feed; EvClose]).
Proof.
  split; [reflexivity|].
  exact (proj1 (three_row_feed_is_refused Ragged.world Ragged.plainRecords
                  Fixture.feed (mkResponse 200 Ragged.threeRows) Fixture.start
                  1 2 3 (fun body => eq_refl) eq_refl eq_refl)).
Defined.

(** C3. [parseDate] tries its layouts in the order of the list, on the
    trimmed string, and returns the time of the first layout that
    parses.  The list is day/month/year with two-digit day and month,
    then with one- or two-digit day and month, then month/day/year, then
    the two mixed forms, and in [membershipship.go] the bare year.
    "03/04/2020" is April 3, 2020, although the month-first layout reads
    it as March 4. *)
Theorem first_matching_layout_wins
  (tried rest : list string) (layout dateStr : string) (t : Time) :
  Forall (fun l => Parse l (TrimSpace dateStr) = None) tried ->
  Parse layout (TrimSpace dateStr) = Some t ->
  Source.parseDate (tried ++ layout :: rest) dateStr = (t, None)
  /\ map layoutElements Revision.layouts =
       [ [("", stdZeroDay); ("/", stdZeroMonth); ("/", stdLongYear); ("", stdNone)];
         [("", stdDay); ("/", stdNumMonth); ("/", stdLongYear); ("", stdNone)];
         [("", stdNumMonth); ("/", stdDay); ("/", stdLongYear); ("", stdNone)];
         [("", stdZeroDay); ("/", stdNumMonth); ("/", stdLongYear); ("", stdNone)];
         [("", stdDay); ("/", stdZeroMonth); ("/", stdLongYear); ("", stdNone)] ]
  /\ map layoutElements Membershipship.layouts =
       map layoutElements Revision.layouts
       ++ [ [("", stdLongYear); ("", stdNone)] ]
  /\ Membershipship.parseDate "03/04/2020" = (mkTime 2020 4 3 0 0 0 0 UTC, None)
  /\ Revision.parseDate "03/04/2020" = (mkTime 2020 4 3 0 0 0 0 UTC, None)
  /\ Parse "1/2/2006" "03/04/2020" = Some (mkTime 2020 3 4 0 0 0 0 UTC).
Proof.
  intros Hnone Hsome. split.
  - unfold Source.parseDate. apply PipelineFacts.tryLayouts_first; assumption.
  - repeat split; reflexivity.
Qed.

Lemma first_matching_layout_wins_witness :
  Forall (fun l => Parse l (TrimSpace " 3/4/2020 ") = None) ["02/01/2006"]
  /\ Parse "2/1/2006" (TrimSpace " 3/4/2020 ") = Some (mkTime 2020 4 3 0 0 0 0 UTC)
  /\ Source.parseDate (["02/01/2006"] ++ "2/1/2006" :: ["1/2/2006"]) " 3/4/2020 "
     = (mkTime 2020 4 3 0 0 0 0 UTC, None).
Proof.
  assert (H1 : Forall (fun l => Parse l (TrimSpace " 3/4/2020 ") = None)
                      ["02/01/2006"])
    by (constructor; [reflexivity|constructor]).
  assert (H2 : Parse "2/1/2006" (TrimSpace " 3/4/2020 ")
               = Some (mkTime 2020 4 3 0 0 0 0 UTC)) by reflexivity.
  split; [exact H1|]. split; [exact H2|].
  exact (proj1 (first_matching_layout_wins
                  ["02/01/2006"] ["1/2/2006"] "2/1/2006" " 3/4/2020 "
                  (mkTime 2020 4 3 0 0 0 0 UTC) H1 H2)).
Defined.

(** C9. When [CSV_URL] is unset or empty, [fetchMemberData] returns the
    error "CSV_URL environment variable is not set" and no member, and
    the state is untouched: no request is sent. *)
Theorem unset_feed_url_fetches_nothing
  (w : World) (layouts : list string) (st : State) :
  Getenv w "CSV_URL" = "" ->
  Source.fetchMemberData w layouts st =
    (([], Some (Errorf "CSV_URL environment variable is not set")), st).
Proof.
  intros H. unfold Source.fetchMemberData. rewrite H. reflexivity.
Qed.

Lemma unset_feed_url_fetches_nothing_witness :
  Getenv Fixture.unset "CSV_URL" = ""
  /\ Membershipship.fetchMemberData Fixture.unset Fixture.start =
     (([], Some (Errorf "CSV_URL environment variable is not set")), Fixture.start).
Proof.
  split; [reflexivity|].
  apply (unset_feed_url_fetches_nothing Fixture.unset Membershipship.layouts Fixture.start).
  reflexivity.
Defined.

(** C5.  A row that has not as many fields as the header makes the run
    fail: [ReadAll] ends with [ErrFieldCount] at the first such record,
    and [readCSVFromUrl] returns that error and no member, whatever else
    the feed holds.  So a row of fewer than six fields under a header of
    six is not skipped in silence: the test [len(row) < 6] of the loop
    is never reached. *)
Theorem shorter_row_fails_the_run
  (w : World) (parse : string -> list (nat * list string) * option error)
  (layouts : list string) (url : string) (resp : Response) (st : State)
  (l0 : nat) (header : list string) (rest : list (nat * list string))
  (last : option error) (l : nat) (row : list string) :
  decodes w parse ->
  Get w url = inl resp ->
  parse (Body resp) = ((l0, header) :: rest, last) ->
  In (l, row) rest ->
  header <> [] ->
  List.length row <> List.length header ->
  exists l',
    Source.readCSVFromUrl w layouts url st =
      (([], Some (GoCsv.fieldCountError l')), closed (sent url st)).
Proof.
  intros Hd HG HP Hin Hh Hne.
  destruct (CsvFacts.readRecords_mismatch rest (Z.of_nat (List.length header))
              last [header] l row) as [l' Hl'].
  - destruct header; [congruence|simpl; lia].
  - exact Hin.
  - lia.
  - exists l'.
    apply PipelineFacts.readCSVFromUrl_malformed with (resp := resp); [exact HG|].
    rewrite Hd, (CsvFacts.ReadAll_header _ _ _ _ _ _ HP). exact Hl'.
Qed.

Lemma shorter_row_fails_the_run_witness :
  exists l',
    Source.readCSVFromUrl Ragged.world Revision.layouts Fixture.feed Fixture.start =
      (([], Some (GoCsv.fieldCountError l')), closed (sent Fixture.feed Fixture.start)).
Proof.
  apply (shorter_row_fails_the_run Ragged.world Ragged.plainRecords
           Revision.layouts Fixture.feed (mkResponse 200 Ragged.threeRows)
           Fixture.start 1 ["H1"; "H2"; "H3"; "H4"; "H5"; "H6"]
           [ (2%nat, ["x"; "Ann"; "Lee"; "ann@x.com"; "y"; "15/03/2023"]);
             (3%nat, ["x"; "Bo"; "Kim"; "bo@x.com"]) ]
           None 3 ["x"; "Bo"; "Kim"; "bo@x.com"]).
  - intros body. reflexivity.
  - reflexivity.
  - reflexivity.
  - right. left. reflexivity.
  - discriminate.
  - simpl. lia.
Defined.

(** C10. Two retained rows at the same place in the feed that agree on
    the fields 1, 2, 3 and 5 give the same run: the same members, the
    same warnings, the same clock readings.  The fields 0 and 4 and
    those after field 5 are not read. *)
Theorem member_depends_on_four_fields
  (w : World) (layouts : list string) (row row' : list string)
  (before after : list (list string)) (st : State) :
  before <> [] ->
  (6 <= List.length row)%nat -> (6 <= List.length row')%nat ->
  index row 1 = index row' 1 -> index row 2 = index row' 2 ->
  index row 3 = index row' 3 -> index row 5 = index row' 5 ->
  normalize w layouts (before ++ row :: after) st =
  normalize w layouts (before ++ row' :: after) st.
Proof.
  intros Hb Hr Hr' E1 E2 E3 E5.
  rewrite (PipelineFacts.normalize_at_retained w layouts before row after st Hb Hr).
  rewrite (PipelineFacts.normalize_at_retained w layouts before row' after st Hb Hr').
  unfold memberOf. rewrite E1, E2, E3, E5. reflexivity.
Qed.

Lemma member_depends_on_four_fields_witness :
  normalize Fixture.world Membershipship.layouts
    ([["H1"; "H2"; "H3"; "H4"; "H5"; "H6"]]
     ++ ["7"; " Ann "; "Lee"; "ann@x.com"; "555"; "soon"] :: []) Fixture.start =
  normalize Fixture.world Membershipship.layouts
    ([["H1"; "H2"; "H3"; "H4"; "H5"; "H6"]]
     ++ ["9"; " Ann "; "Lee"; "ann@x.com"; ""; "soon"; "more"] :: []) Fixture.start.
Proof.
  apply (member_depends_on_four_fields Fixture.world Membershipship.layouts
           ["7"; " Ann "; "Lee"; "ann@x.com"; "555"; "soon"]
           ["9"; " Ann "; "Lee"; "ann@x.com"; ""; "soon"; "more"]
           [["H1"; "H2"; "H3"; "H4"; "H5"; "H6"]] [] Fixture.start).
  - discriminate.
  - simpl; lia.
  - simpl; lia.
  - reflexivity.
  - reflexivity.
  - reflexivity.
  - reflexivity.
Defined.

(** C6. A retained row gives a member whose first name, last name and
    email are the fields 1, 2 and 3 of the row without the white space
    around them, and whose join date is read from field 5, trimmed
    before the layouts are tried: the time of the first layout that
    parses it, and the clock reading when none does. *)
Theorem retained_row_field_mapping
  (w : World) (layouts : list string) (row : list string)
  (before after : list (list string)) (st : State) :
  before <> [] -> (6 <= List.length row)%nat ->
  exists f1 f2 f3 f5 m rest st',
    nth_error row 1 = Some f1 /\ nth_error row 2 = Some f2
    /\ nth_error row 3 = Some f3 /\ nth_error row 5 = Some f5
    /\ normalize w layouts (before ++ row :: after) st =
       (fst (normalize w layouts before st) ++ m :: rest, st')
    /\ FirstName m = TrimSpace f1 /\ trimmed (FirstName m) f1
    /\ LastName m = TrimSpace f2 /\ trimmed (LastName m) f2
    /\ Email m = TrimSpace f3 /\ trimmed (Email m) f3
    /\ match Source.tryLayouts layouts (TrimSpace f5) with
       | (t, None) => JoinDate m = t
       | (_, Some _) =>
           JoinDate m = Now w (ticks (snd (normalize w layouts before st)))
       end.
Proof.
  intros Hb Hr.
  assert (Hlt : (List.length row <? 6)%nat = false) by (apply Nat.ltb_ge; lia).
  exists (index row 1), (index row 2), (index row 3), (index row 5).
  pose proof (PipelineFacts.normalize_at_retained w layouts before row after st Hb Hr)
    as Hrun. cbv zeta in Hrun.
  unfold Source.parseDate in Hrun.
  destruct (Source.tryLayouts layouts (TrimSpace (index row 5))) as [t [e|]] eqn:P.
  - rewrite LoopFacts.rowsLoop_acc in Hrun. rewrite <- app_assoc in Hrun.
    eexists; eexists; eexists.
    repeat (split; [apply LoopFacts.index_in_range; [exact Hlt|lia]|]).
    split; [exact Hrun|]. simpl.
    repeat split; try apply TrimFacts.TrimSpace_trimmed.
  - rewrite LoopFacts.rowsLoop_acc in Hrun. rewrite <- app_assoc in Hrun.
    eexists; eexists; eexists.
    repeat (split; [apply LoopFacts.index_in_range; [exact Hlt|lia]|]).
    split; [exact Hrun|]. simpl.
    repeat split; try apply TrimFacts.TrimSpace_trimmed.
Qed.

Lemma retained_row_field_mapping_witness :
  exists f1 f2 f3 f5 m rest st',
    nth_error ["7"; " Ann "; "Lee"; "ann@x.com"; "555"; " 15/03/2023"] 1 = Some f1
    /\ nth_error ["7"; " Ann "; "Lee"; "ann@x.com"; "555"; " 15/03/2023"] 2 = Some f2
    /\ nth_error ["7"; " Ann "; "Lee"; "ann@x.com"; "555"; " 15/03/2023"] 3 = Some f3
    /\ nth_error ["7"; " Ann "; "Lee"; "ann@x.com"; "555"; " 15/03/2023"] 5 = Some f5
    /\ normalize Fixture.world Revision.layouts
         ([["H1"; "H2"; "H3"; "H4"; "H5"; "H6"]]
          ++ ["7"; " Ann "; "Lee"; "ann@x.com"; "555"; " 15/03/2023"] :: [])
         Fixture.start =
       (fst (normalize Fixture.world Revision.layouts
               [["H1"; "H2"; "H3"; "H4"; "H5"; "H6"]] Fixture.start)
        ++ m :: rest, st')
    /\ FirstName m = TrimSpace f1 /\ trimmed (FirstName m) f1
    /\ LastName m = TrimSpace f2 /\ trimmed (LastName m) f2
    /\ Email m = TrimSpace f3 /\ trimmed (Email m) f3
    /\ match Source.tryLayouts Revision.layouts (TrimSpace f5) with
       | (t, None) => JoinDate m = t
       | (_, Some _) =>
           JoinDate m =
           Now Fixture.world
               (ticks (snd (normalize Fixture.world Revision.layouts
                              [["H1"; "H2"; "H3"; "H4"; "H5"; "H6"]] Fixture.start)))
       end.
Proof.
  apply (retained_row_field_mapping Fixture.world Revision.layouts
           ["7"; " Ann "; "Lee"; "ann@x.com"; "555"; " 15/03/2023"]
           [["H1"; "H2"; "H3"; "H4"; "H5"; "H6"]] [] Fixture.start).
  - discriminate.
  - simpl; lia.
Defined.



(** C2. Every member that [readCSVFromUrl] returns has a join date
    that exists and the expiration date that [AddDate(1, 0, 0)] makes of
    the join date and of nothing else.  Its join date was either parsed
    from the feed, and then the expiration date is on the same month and
    day of the next year, except for a join date on February 29, which
    expires on March 1 of the next year; or it was read from the clock,
    and then the same holds where the location of the clock keeps that
    wall clock on its day. *)
Theorem expiration_is_join_date_plus_one_year
  (w : World) (layouts : list string) (url : string) (st : State) (m : Member) :
  (forall n, wellFormed (Now w n)) ->
  In m (fst (fst (Source.readCSVFromUrl w layouts url st))) ->
  let nextYear :=
    if isFeb29 (JoinDate m)
    then marchFirstNextYear (JoinDate m) (ExpirationDate m)
    else sameDayNextYear (JoinDate m) (ExpirationDate m) in
  wellFormed (JoinDate m)
  /\ ExpirationDate m = AddDate (JoinDate m) 1 0 0
  /\ ((exists dateStr,
         Source.parseDate layouts dateStr = (JoinDate m, None) /\ nextYear)
      \/ (exists n,
            JoinDate m = Now w n /\ (keepsDay (JoinDate m) -> nextYear))).
Proof.
  intros Hnow Hin nextYear.
  assert (D : dated m /\ fromFeedOrClock w layouts m).
  { destruct (Get w url) as [resp|e] eqn:HG.
    - destruct (ReadAll w (Body resp)) as [data|e] eqn:HR.
      + rewrite (PipelineFacts.readCSVFromUrl_decoded _ _ _ _ _ _ HG HR) in Hin.
        cbn [fst] in Hin. unfold normalize in Hin.
        pose proof (PipelineFacts.rowsLoop_dated w layouts data Hnow 0 []
                      (sent url st) (Forall_nil _)) as HF.
        pose proof (PipelineFacts.rowsLoop_origin w layouts data 0 []
                      (sent url st) (Forall_nil _)) as HO.
        rewrite Forall_forall in HF, HO. split; [apply HF|apply HO]; exact Hin.
      + rewrite (PipelineFacts.readCSVFromUrl_malformed _ _ _ _ _ _ HG HR) in Hin.
        destruct Hin.
    - rewrite (PipelineFacts.readCSVFromUrl_unreachable _ _ _ _ _ HG) in Hin.
      destruct Hin. }
  destruct D as [[Hwf Hexp] Hor]. split; [exact Hwf|]. split; [exact Hexp|].
  assert (K : keepsDay (JoinDate m) -> nextYear).
  { intros Hk. unfold nextYear. rewrite Hexp.
    exact (TimeFacts.AddDate_calendar _ Hwf Hk). }
  destruct Hor as [(dateStr & HP)|(n & Hn)].
  - left. exists dateStr. split; [exact HP|]. apply K.
    unfold keepsDay. rewrite (PipelineFacts.parseDate_UTC _ _ _ HP). exact I.
  - right. exists n. split; [exact Hn|exact K].
Qed.

Lemma expiration_is_join_date_plus_one_year_witness :
  let ann :=
    mkMember "Ann" "Lee" "ann@x.com"
             (mkTime 2023 3 15 0 0 0 0 UTC) (mkTime 2024 3 15 0 0 0 0 UTC) in
  In ann (fst (fst (Source.readCSVFromUrl Fixture.world Membershipship.layouts
                      Fixture.feed Fixture.start)))
  /\ wellFormed (JoinDate ann)
  /\ ExpirationDate ann = AddDate (JoinDate ann) 1 0 0
  /\ ((exists dateStr,
         Membershipship.parseDate dateStr = (JoinDate ann, None)
         /\ sameDayNextYear (JoinDate ann) (ExpirationDate ann))
      \/ (exists n,
            JoinDate ann = Now Fixture.world n
            /\ (keepsDay (JoinDate ann) ->
                sameDayNextYear (JoinDate ann) (ExpirationDate ann)))).
Proof.
  intros ann.
  assert (Hin : In ann (fst (fst (Source.readCSVFromUrl Fixture.world
                   Membershipship.layouts Fixture.feed Fixture.start))))
    by (left; reflexivity).
  split; [exact Hin|].
  exact (expiration_is_join_date_plus_one_year Fixture.world
           Membershipship.layouts Fixture.feed Fixture.start ann
           PipelineFacts.leapClock_wellFormed Hin).
Defined.

(** A member who joined on February 29, 2020 expires on March 1, 2021:
    neither the month nor the day of the join date. *)
Lemma leap_day_member_expires_in_march :
  exists m,
    In m (fst (fst (Membershipship.fetchMemberData Fixture.world Fixture.start)))
    /\ JoinDate m = mkTime 2020 2 29 0 0 0 0 UTC
    /\ ExpirationDate m = mkTime 2021 3 1 0 0 0 0 UTC
    /\ ~ (year (ExpirationDate m) = year (JoinDate m) + 1
          /\ month (ExpirationDate m) = month (JoinDate m)
          /\ day (ExpirationDate m) = day (JoinDate m)).
Proof.
  exists (mkMember "Bo" "Kim" "bo@x.com"
            (mkTime 2020 2 29 0 0 0 0 UTC) (mkTime 2021 3 1 0 0 0 0 UTC)).
  split; [right; left; reflexivity|].
  split; [reflexivity|]. split; [reflexivity|].
  simpl. intros (_ & H & _). discriminate H.
Qed.

(** C1, as the code has it.  [readCSVFromUrl] fails on the fetch, with
    the error of [http.Get] and no member, exactly when [http.Get]
    returns an error.  The status of a response is not read: whatever it
    is, the body is decoded and its rows are turned into members. *)
Theorem fetch_fails_only_when_Get_fails
  (w : World) (layouts : list string) (url : string) (st : State) :
  (forall code,
     Source.readCSVFromUrl (withStatus code w) layouts url st =
     Source.readCSVFromUrl w layouts url st)
  /\ match Get w url with
     | inr e =>
         Source.readCSVFromUrl w layouts url st = (([], Some e), sent url st)
     | inl resp =>
         match ReadAll w (Body resp) with
         | inr e =>
             Source.readCSVFromUrl w layouts url st =
               (([], Some e), closed (sent url st))
         | inl data =>
             Source.readCSVFromUrl w layouts url st =
               ((fst (normalize w layouts data (sent url st)), None),
                closed (snd (normalize w layouts data (sent url st))))
         end
     end.
Proof.
  split.
  - intros code.
    destruct (Get w url) as [resp|e] eqn:HG.
    + assert (HG' : Get (withStatus code w) url = inl (mkResponse code (Body resp)))
        by (simpl; rewrite HG; reflexivity).
      destruct (ReadAll w (Body resp)) as [data|e] eqn:HR.
      * rewrite (PipelineFacts.readCSVFromUrl_decoded w _ _ _ _ _ HG HR).
        rewrite (PipelineFacts.readCSVFromUrl_decoded (withStatus code w)
                   _ _ _ _ data HG' HR).
        unfold normalize.
        rewrite (PipelineFacts.rowsLoop_ext (withStatus code w) w layouts data
                   (fun n => eq_refl)).
        reflexivity.
      * rewrite (PipelineFacts.readCSVFromUrl_malformed w _ _ _ _ _ HG HR).
        rewrite (PipelineFacts.readCSVFromUrl_malformed (withStatus code w)
                   _ _ _ _ e HG' HR).
        reflexivity.
    + assert (HG' : Get (withStatus code w) url = inr e)
        by (simpl; rewrite HG; reflexivity).
      rewrite (PipelineFacts.readCSVFromUrl_unreachable w _ _ _ _ HG).
      rewrite (PipelineFacts.readCSVFromUrl_unreachable (withStatus code w) _ _ _ _ HG').
      reflexivity.
  - destruct (Get w url) as [resp|e] eqn:HG.
    + destruct (ReadAll w (Body resp)) as [data|e] eqn:HR.
      * exact (PipelineFacts.readCSVFromUrl_decoded w _ _ _ _ _ HG HR).
      * exact (PipelineFacts.readCSVFromUrl_malformed w _ _ _ _ _ HG HR).
    + exact (PipelineFacts.readCSVFromUrl_unreachable w _ _ _ _ HG).
Qed.

(** A server that answers 404: the body is parsed all the same, three
    members are returned and no error. *)
Lemma not_found_response_is_parsed :
  Get Fixture.world "http://roster.test/gone" = inl (mkResponse 404 Fixture.roster)
  /\ snd (fst (Membershipship.readCSVFromUrl Fixture.world
                 "http://roster.test/gone" Fixture.start)) = None
  /\ List.length (fst (fst (Membershipship.readCSVFromUrl Fixture.world
                              "http://roster.test/gone" Fixture.start))) = 3%nat.
Proof.
  repeat split.
Qed.


End Conformance.

(** * Further properties of the pipeline *)

(** ** The row loop *)

Module MoreLoopFacts.
Section Loop.

Local Open Scope list_scope.

Variable w : World.
Variable layouts : list string.

Lemma rowsLoop_fields (F : Member -> string) (k : nat) data :
  (forall row t, F (memberOf row t) = GoStrings.TrimSpace (index row k)) ->
  forall i members st,
    map F (fst (Source.rowsLoop w layouts i data members st)) =
    map F members
    ++ map (fun row => GoStrings.TrimSpace (index row k)) (retainedRows i data).
Proof.
  intros HF. induction data as [|row data IH]; intros i members st.
  - simpl. rewrite app_nil_r. reflexivity.
  - cbn [retainedRows]. destruct (retained i row) eqn:R.
    + destruct (Source.parseDate layouts (index row 5)) as [t [e|]] eqn:P.
      * rewrite (LoopFacts.rowsLoop_fallback _ _ _ _ _ _ _ _ _ R P), IH.
        rewrite map_app, <- app_assoc. simpl. rewrite HF. reflexivity.
      * rewrite (LoopFacts.rowsLoop_parsed _ _ _ _ _ _ _ _ R P), IH.
        rewrite map_app, <- app_assoc. simpl. rewrite HF. reflexivity.
    + rewrite (LoopFacts.rowsLoop_skip _ _ _ _ _ _ _ R), IH. reflexivity.
Qed.

Lemma rowsLoop_effects data :
  forall i members st,
    trace (snd (Source.rowsLoop w layouts i data members st)) =
      trace st ++ fallbacks layouts i data
    /\ ticks (snd (Source.rowsLoop w layouts i data members st)) =
      (ticks st + List.length (fallbacks layouts i data))%nat.
Proof.
  induction data as [|row data IH]; intros i members st.
  - simpl. rewrite app_nil_r. split; [reflexivity|lia].
  - cbn [fallbacks]. destruct (retained i row) eqn:R.
    + destruct (Source.parseDate layouts (index row 5)) as [t [e|]] eqn:P.
      * rewrite (LoopFacts.rowsLoop_fallback _ _ _ _ _ _ _ _ _ R P).
        destruct (IH (S i) (members ++ [memberOf row (Now w (ticks st))])
                     (afterFallback i e st)) as [Ht Hk].
        rewrite Ht, Hk. unfold afterFallback. simpl.
        rewrite <- app_assoc. split; [reflexivity|lia].
      * rewrite (LoopFacts.rowsLoop_parsed _ _ _ _ _ _ _ _ R P). simpl.
        apply IH.
    + rewrite (LoopFacts.rowsLoop_skip _ _ _ _ _ _ _ R). simpl. apply IH.
Qed.

End Loop.

(** Without a fallback, the loop neither reads nor changes anything. *)
Lemma rowsLoop_clean (w w' : World) (layouts : list string) data :
  forall i members st,
    fallbacks layouts i data = [] ->
    Source.rowsLoop w layouts i data members st =
      (fst (Source.rowsLoop w' layouts i data members st), st).
Proof.
  induction data as [|row data IH]; intros i members st H.
  - reflexivity.
  - cbn [fallbacks] in H. apply app_eq_nil in H. destruct H as [H1 H2].
    destruct (retained i row) eqn:R.
    + destruct (Source.parseDate layouts (index row 5)) as [t [e|]] eqn:P.
      * simpl in H1. discriminate.
      * rewrite !(LoopFacts.rowsLoop_parsed _ _ _ _ _ _ _ _ R P).
        apply IH. exact H2.
    + rewrite !(LoopFacts.rowsLoop_skip _ _ _ _ _ _ _ R). apply IH. exact H2.
Qed.

Local Open Scope list_scope.

(** The trace of a run of [readCSVFromUrl]. *)
Lemma readCSVFromUrl_trace
  (w : World) (layouts : list string) (url : string) (st : State) :
  trace (snd (Source.readCSVFromUrl w layouts url st)) =
    match Get w url with
    | inr _ => trace st ++ [EvGet url]
    | inl resp =>
        trace st ++ [EvGet url]
        ++ match ReadAll w (Body resp) with
           | inl data => fallbacks layouts 0 data
           | inr _ => []
           end
        ++ [EvClose]
    end.
Proof.
  destruct (Get w url) as [resp|e] eqn:HG.
  - destruct (ReadAll w (Body resp)) as [data|e] eqn:HR.
    + rewrite (PipelineFacts.readCSVFromUrl_decoded w _ _ _ _ _ HG HR).
      unfold closed. cbn [snd trace].
      unfold normalize.
      rewrite (proj1 (rowsLoop_effects w layouts data 0 [] (sent url st))).
      unfold sent. cbn [trace]. rewrite <- !app_assoc. reflexivity.
    + rewrite (PipelineFacts.readCSVFromUrl_malformed w _ _ _ _ _ HG HR).
      unfold closed, sent. cbn [snd trace]. rewrite <- !app_assoc. reflexivity.
  - rewrite (PipelineFacts.readCSVFromUrl_unreachable w _ _ _ _ HG). reflexivity.
Qed.

End MoreLoopFacts.

Section MorePipeline.

Import GoStrings GoTime Spec.
Local Open Scope list_scope.

(** X1. The members come out in the order of their rows: their first
    names, last names and emails are the trimmed fields 1, 2 and 3 of
    the retained rows, row after row. *)
Theorem members_follow_the_rows
  (w : World) (layouts : list string) (data : list (list string)) (st : State) :
  let members := fst (normalize w layouts data st) in
  map FirstName members =
    map (fun row => TrimSpace (index row 1)) (retainedRows 0 data)
  /\ map LastName members =
    map (fun row => TrimSpace (index row 2)) (retainedRows 0 data)
  /\ map Email members =
    map (fun row => TrimSpace (index row 3)) (retainedRows 0 data).
Proof.
  unfold normalize. repeat split.
  - apply (MoreLoopFacts.rowsLoop_fields w layouts FirstName 1 data
             (fun _ _ => eq_refl) 0 [] st).
  - apply (MoreLoopFacts.rowsLoop_fields w layouts LastName 2 data
             (fun _ _ => eq_refl) 0 [] st).
  - apply (MoreLoopFacts.rowsLoop_fields w layouts Email 3 data
             (fun _ _ => eq_refl) 0 [] st).
Qed.

(** X2. The loop logs one warning and reads the clock once for each
    retained row whose date cannot be parsed, in the order of the rows,
    and does nothing else to the state. *)
Theorem one_warning_and_one_reading_per_fallback
  (w : World) (layouts : list string) (data : list (list string)) (st : State) :
  trace (snd (normalize w layouts data st)) = trace st ++ fallbacks layouts 0 data
  /\ ticks (snd (normalize w layouts data st)) =
     (ticks st + List.length (fallbacks layouts 0 data))%nat.
Proof.
  apply MoreLoopFacts.rowsLoop_effects.
Qed.

(** X3. When every retained row has a date that parses, the members do
    not depend on the world, whatever the clock reads, and the state is
    left as it was. *)
Theorem clean_feed_ignores_the_clock
  (w w' : World) (layouts : list string) (data : list (list string)) (st : State) :
  fallbacks layouts 0 data = [] ->
  normalize w layouts data st = normalize w' layouts data st
  /\ snd (normalize w layouts data st) = st.
Proof.
  intros H. unfold normalize.
  rewrite (MoreLoopFacts.rowsLoop_clean w w' layouts data 0 [] st H).
  split; [|reflexivity].
  rewrite (MoreLoopFacts.rowsLoop_clean w' w' layouts data 0 [] st H).
  reflexivity.
Qed.

Lemma clean_feed_ignores_the_clock_witness :
  fallbacks Membershipship.layouts 0
    [ ["H1"; "H2"; "H3"; "H4"; "H5"; "H6"];
      ["x"; "Ann"; "Lee"; "ann@x.com"; "y"; "15/03/2023"];
      ["x"; "Bo"; "Kim"; "bo@x.com"] ] = []
  /\ normalize Fixture.world Membershipship.layouts
       [ ["H1"; "H2"; "H3"; "H4"; "H5"; "H6"];
         ["x"; "Ann"; "Lee"; "ann@x.com"; "y"; "15/03/2023"];
         ["x"; "Bo"; "Kim"; "bo@x.com"] ] Fixture.start
     = normalize Fixture.offline Membershipship.layouts
       [ ["H1"; "H2"; "H3"; "H4"; "H5"; "H6"];
         ["x"; "Ann"; "Lee"; "ann@x.com"; "y"; "15/03/2023"];
         ["x"; "Bo"; "Kim"; "bo@x.com"] ] Fixture.start.
Proof.
  assert (H : fallbacks Membershipship.layouts 0
    [ ["H1"; "H2"; "H3"; "H4"; "H5"; "H6"];
      ["x"; "Ann"; "Lee"; "ann@x.com"; "y"; "15/03/2023"];
      ["x"; "Bo"; "Kim"; "bo@x.com"] ] = []) by reflexivity.
  split; [exact H|].
  exact (proj1 (clean_feed_ignores_the_clock Fixture.world Fixture.offline
                  Membershipship.layouts _ Fixture.start H)).
Defined.

(** X4. [readCSVFromUrl] sends exactly one request, to [url].  When a
    response comes, its body is closed exactly once, after everything
    else, whether the payload could be decoded or not; in between, only
    the warnings of the rows are logged.  When no response comes,
    nothing is closed. *)
Theorem one_request_and_body_closed
  (w : World) (layouts : list string) (url : string) (st : State) :
  trace (snd (Source.readCSVFromUrl w layouts url st)) =
    match Get w url with
    | inr _ => trace st ++ [EvGet url]
    | inl resp =>
        trace st ++ [EvGet url]
        ++ match ReadAll w (Body resp) with
           | inl data => fallbacks layouts 0 data
           | inr _ => []
           end
        ++ [EvClose]
    end.
Proof.
  apply MoreLoopFacts.readCSVFromUrl_trace.
Qed.

(** X5. [fetchMemberData] sends requests to the value of [CSV_URL] and
    to nothing else. *)
Theorem only_the_configured_feed_is_requested
  (w : World) (layouts : list string) (st : State) (u : string) :
  In (EvGet u) (trace (snd (Source.fetchMemberData w layouts st))) ->
  In (EvGet u) (trace st) \/ (u = Getenv w "CSV_URL" /\ u <> "").
Proof.
  unfold Source.fetchMemberData.
  destruct (String.eqb (Getenv w "CSV_URL") "") eqn:E.
  - intros H. left. exact H.
  - apply String.eqb_neq in E.
    rewrite MoreLoopFacts.readCSVFromUrl_trace. intros H.
    assert (G : forall evs,
               (forall ev, In ev evs -> forall u', ev <> EvGet u') ->
               In (EvGet u) (trace st ++ [EvGet (Getenv w "CSV_URL")] ++ evs) ->
               In (EvGet u) (trace st) \/ (u = Getenv w "CSV_URL" /\ u <> "")).
    { intros evs Hevs Hin. apply in_app_or in Hin. destruct Hin as [Hin|Hin];
        [left; exact Hin|].
      destruct Hin as [Hin|Hin].
      - right. inversion Hin; subst. split; [reflexivity|exact E].
      - exfalso. exact (Hevs _ Hin u eq_refl). }
    assert (F : forall ls i data ev,
               In ev (fallbacks ls i data) -> forall u', ev <> EvGet u').
    { intros ls i data. revert i.
      induction data as [|row data IH]; intros i ev Hin u'; [destruct Hin|].
      cbn [fallbacks] in Hin. apply in_app_or in Hin. destruct Hin as [Hin|Hin].
      - destruct (retained i row); [|destruct Hin].
        destruct (snd (Source.parseDate ls (index row 5))); [|destruct Hin].
        destruct Hin as [<-|[]]. discriminate.
      - exact (IH _ _ Hin u'). }
    destruct (Get w (Getenv w "CSV_URL")) as [resp|e].
    + refine (G _ _ H). intros ev Hev u'.
      apply in_app_or in Hev. destruct Hev as [Hev|[<-|[]]]; [|discriminate].
      destruct (ReadAll w (Body resp)) as [data|e']; [|destruct Hev].
      exact (F _ _ _ _ Hev u').
    + apply (G [] (fun ev Hev => match Hev with end)).
      rewrite app_nil_r. exact H.
Qed.

Lemma only_the_configured_feed_is_requested_witness :
  In (EvGet Fixture.feed)
     (trace (snd (Source.fetchMemberData Fixture.world Membershipship.layouts
                    Fixture.start)))
  /\ (In (EvGet Fixture.feed) (trace Fixture.start)
      \/ (Fixture.feed = Getenv Fixture.world "CSV_URL" /\ Fixture.feed <> "")).
Proof.
  assert (H : In (EvGet Fixture.feed)
                (trace (snd (Source.fetchMemberData Fixture.world
                               Membershipship.layouts Fixture.start))))
    by (left; reflexivity).
  split; [exact H|].
  exact (only_the_configured_feed_is_requested Fixture.world
           Membershipship.layouts Fixture.start Fixture.feed H).
Defined.

End MorePipeline.

(** ** What the layouts read *)

Module ShapeFacts.
Import GoTime Shape.

Lemma digit_val c : digit c = true -> 0 <= digitVal c <= 9.
Proof.
  unfold digit, GoStrings.byte_in, digitVal. intros H.
  apply andb_true_iff in H. destruct H as [H1 H2].
  apply N.leb_le in H1, H2. lia.
Qed.

Lemma getnum_range s fixed n rest :
  getnum s fixed = Some (n, rest) -> 0 <= n <= 99.
Proof.
  unfold getnum. destruct s as [|c0 s1]; [discriminate|].
  destruct (digit c0) eqn:D0; [|discriminate]. cbn [negb].
  pose proof (digit_val _ D0) as B0.
  destruct (isDigit0 s1) eqn:D1; cbn [negb].
  - destruct s1 as [|c1 s2]; [discriminate|]. cbn [isDigit0] in D1.
    pose proof (digit_val _ D1) as B1.
    intros H. inversion H; subst. lia.
  - destruct fixed; [discriminate|]. intros H. inversion H; subst. lia.
Qed.

(** Where two digits are asked for, one or two are accepted too. *)
Lemma getnum_fixed s r : getnum s true = Some r -> getnum s false = Some r.
Proof.
  unfold getnum. destruct s as [|c0 s1]; [discriminate|].
  destruct (negb (digit c0)); [discriminate|].
  destruct (negb (isDigit0 s1)); [discriminate|]. exact (fun H => H).
Qed.

Lemma getnum_any fa s r : getnum s fa = Some r -> getnum s false = Some r.
Proof. destruct fa; [apply getnum_fixed|exact (fun H => H)]. Qed.

Lemma skip_nil v : skip v "" = Some v.
Proof. reflexivity. Qed.

Lemma skip_slash v : skip v "/" = slash v.
Proof. destruct v as [|c v']; reflexivity. Qed.

Lemma parseLoop_step k layout value y m d prefix s suffix :
  nextStdChunk layout = (prefix, s, suffix) ->
  parseLoop (S k) layout value y m d =
    match skip value prefix with
    | None => None
    | Some value =>
        match s with
        | stdNone =>
            if (String.length value =? 0)%nat then Some (y, m, d) else None
        | stdLongYear =>
            if (String.length value <? 4)%nat || negb (isDigit0 value)
            then None
            else
              match atoi (String.substring 0 4 value) with
              | Some y => parseLoop k suffix (drop 4 value) y m d
              | None => None
              end
        | stdNumMonth | stdZeroMonth =>
            match getnum value (match s with stdZeroMonth => true | _ => false end) with
            | Some (m, value) =>
                if (m <=? 0) || (12 <? m) then None
                else parseLoop k suffix value y m d
            | None => None
            end
        | stdDay | stdZeroDay =>
            match getnum value (match s with stdZeroDay => true | _ => false end) with
            | Some (d, value) => parseLoop k suffix value y m d
            | None => None
            end
        | stdOther => None
        end
    end.
Proof.
  intros H. cbn [parseLoop]. rewrite H. reflexivity.
Qed.

(** The end of the layout: nothing may be left of the value. *)
Lemma parseLoop_end k value y m d :
  parseLoop (S k) "" value y m d =
    if (String.length value =? 0)%nat then Some (y, m, d) else None.
Proof. reflexivity. Qed.

(** The last element, the year. *)
Lemma parseLoop_year k layout value y m d :
  nextStdChunk layout = ("/"%string, stdLongYear, ""%string) ->
  parseLoop (S (S k)) layout value y m d =
    match slash value with
    | None => None
    | Some v =>
        match fourDigitYear v with
        | Some y' => Some (y', m, d)
        | None => None
        end
    end.
Proof.
  intros H. rewrite (parseLoop_step _ _ _ _ _ _ _ _ _ H), skip_slash.
  destruct (slash value) as [v|]; [|reflexivity].
  unfold fourDigitYear.
  destruct ((String.length v <? 4)%nat || negb (isDigit0 v)); [reflexivity|].
  destruct (atoi (substring 0 4 v)) as [y'|]; [|reflexivity].
  rewrite parseLoop_end.
  destruct (String.length (drop 4 v) =? 0)%nat; reflexivity.
Qed.

Lemma finish_date y m d :
  0 <= d -> (m <=? 0) || (12 <? m) = false ->
  (let m' := if m <? 0 then 1 else m in
   let d' := if d <? 0 then 1 else d in
   if (d' <? 1) || (daysIn m' y <? d') then None
   else Some (Date y m' d' 0 0 0 0 UTC)) = dateOf y m d.
Proof.
  intros Hd Hm. unfold dateOf. rewrite Hm.
  apply orb_false_iff in Hm. destruct Hm as [H1 H2].
  apply Z.leb_gt in H1. apply Z.ltb_ge in H2.
  cbv zeta.
  replace (m <? 0) with false by (symmetry; apply Z.ltb_ge; lia).
  replace (d <? 0) with false by (symmetry; apply Z.ltb_ge; lia).
  destruct ((d <? 1) || (daysIn m y <? d)) eqn:E; [reflexivity|].
  apply orb_false_iff in E. destruct E as [E1 E2].
  apply Z.ltb_ge in E1, E2.
  rewrite TimeFacts.Date_in_range; [reflexivity|].
  unfold wellFormed; simpl. lia.
Qed.

Lemma three_elements l0 l1 l2 p0 s0 p1 s1 p2 s2 :
  nextStdChunk l0 = (p0, s0, l1) -> s0 <> stdNone ->
  nextStdChunk l1 = (p1, s1, l2) -> s1 <> stdNone ->
  nextStdChunk l2 = (p2, s2, ""%string) -> s2 <> stdNone ->
  exists k, String.length l0 = S (S (S k)).
Proof.
  intros H0 N0 H1 N1 H2 N2.
  pose proof (ParseFacts.nextStdChunk_shorter _ _ _ _ H0 N0).
  pose proof (ParseFacts.nextStdChunk_shorter _ _ _ _ H1 N1).
  pose proof (ParseFacts.nextStdChunk_shorter _ _ _ _ H2 N2).
  exists (String.length l0 - 3)%nat. lia.
Qed.

(** A layout day/month/year reads [a/b/y] as day [a] of month [b]. *)
Lemma Parse_day_month l0 l1 l2 fa fb v :
  nextStdChunk l0 = (""%string, dayStd fa, l1) ->
  nextStdChunk l1 = ("/"%string, monthStd fb, l2) ->
  nextStdChunk l2 = ("/"%string, stdLongYear, ""%string) ->
  Parse l0 v =
    match threeNumbers fa fb v with
    | Some (a, b, y) => dateOf y b a
    | None => None
    end.
Proof.
  intros H0 H1 H2.
  destruct (three_elements _ _ _ _ _ _ _ _ _ H0 ltac:(destruct fa; discriminate)
              H1 ltac:(destruct fb; discriminate) H2 ltac:(discriminate)) as [k Hk].
  unfold Parse, threeNumbers. rewrite Hk.
  rewrite (parseLoop_step _ _ _ _ _ _ _ _ _ H0), skip_nil.
  replace (match dayStd fa with
           | stdNone => _ | stdLongYear => _ | stdZeroMonth | stdNumMonth => _
           | stdZeroDay | stdDay => _ | stdOther => _ end)
    with (match getnum v fa with
          | Some (d, value) => parseLoop (S (S (S k))) l1 value 0 (-1) d
          | None => None
          end)
    by (destruct fa; reflexivity).
  destruct (getnum v fa) as [[a v1]|] eqn:Ga; [|reflexivity].
  pose proof (getnum_range _ _ _ _ Ga) as Ba.
  rewrite (parseLoop_step _ _ _ _ _ _ _ _ _ H1), skip_slash.
  destruct (slash v1) as [v2|]; [|reflexivity].
  replace (match monthStd fb with
           | stdNone => _ | stdLongYear => _ | stdZeroMonth | stdNumMonth => _
           | stdZeroDay | stdDay => _ | stdOther => _ end)
    with (match getnum v2 fb with
          | Some (m, value) =>
              if (m <=? 0) || (12 <? m) then None
              else parseLoop (S (S k)) l2 value 0 m a
          | None => None
          end)
    by (destruct fb; reflexivity).
  destruct (getnum v2 fb) as [[b v3]|] eqn:Gb; [|reflexivity].
  destruct ((b <=? 0) || (12 <? b)) eqn:Rb.
  - destruct (slash v3) as [v4|]; [|reflexivity].
    destruct (fourDigitYear v4) as [y|]; [|reflexivity].
    unfold dateOf. rewrite Rb. reflexivity.
  - rewrite (parseLoop_year _ _ _ _ _ _ H2).
    destruct (slash v3) as [v4|]; [|reflexivity].
    destruct (fourDigitYear v4) as [y|]; [|reflexivity].
    apply finish_date; [lia|exact Rb].
Qed.

(** A layout month/day/year reads [a/b/y] as day [b] of month [a]. *)
Lemma Parse_month_day l0 l1 l2 fa fb v :
  nextStdChunk l0 = (""%string, monthStd fa, l1) ->
  nextStdChunk l1 = ("/"%string, dayStd fb, l2) ->
  nextStdChunk l2 = ("/"%string, stdLongYear, ""%string) ->
  Parse l0 v =
    match threeNumbers fa fb v with
    | Some (a, b, y) => dateOf y a b
    | None => None
    end.
Proof.
  intros H0 H1 H2.
  destruct (three_elements _ _ _ _ _ _ _ _ _ H0 ltac:(destruct fa; discriminate)
              H1 ltac:(destruct fb; discriminate) H2 ltac:(discriminate)) as [k Hk].
  unfold Parse, threeNumbers. rewrite Hk.
  rewrite (parseLoop_step _ _ _ _ _ _ _ _ _ H0), skip_nil.
  replace (match monthStd fa with
           | stdNone => _ | stdLongYear => _ | stdZeroMonth | stdNumMonth => _
           | stdZeroDay | stdDay => _ | stdOther => _ end)
    with (match getnum v fa with
          | Some (m, value) =>
              if (m <=? 0) || (12 <? m) then None
              else parseLoop (S (S (S k))) l1 value 0 m (-1)
          | None => None
          end)
    by (destruct fa; reflexivity).
  destruct (getnum v fa) as [[a v1]|] eqn:Ga; [|reflexivity].
  destruct ((a <=? 0) || (12 <? a)) eqn:Ra.
  - destruct (slash v1) as [v2|]; [|reflexivity].
    destruct (getnum v2 fb) as [[b v3]|]; [|reflexivity].
    destruct (slash v3) as [v4|]; [|reflexivity].
    destruct (fourDigitYear v4) as [y|]; [|reflexivity].
    unfold dateOf. rewrite Ra. reflexivity.
  - rewrite (parseLoop_step _ _ _ _ _ _ _ _ _ H1), skip_slash.
    destruct (slash v1) as [v2|]; [|reflexivity].
    replace (match dayStd fb with
             | stdNone => _ | stdLongYear => _ | stdZeroMonth | stdNumMonth => _
             | stdZeroDay | stdDay => _ | stdOther => _ end)
      with (match getnum v2 fb with
            | Some (d, value) => parseLoop (S (S k)) l2 value 0 a d
            | None => None
            end)
      by (destruct fb; reflexivity).
    destruct (getnum v2 fb) as [[b v3]|] eqn:Gb; [|reflexivity].
    pose proof (getnum_range _ _ _ _ Gb) as Bb.
    rewrite (parseLoop_year _ _ _ _ _ _ H2).
    destruct (slash v3) as [v4|]; [|reflexivity].
    destruct (fourDigitYear v4) as [y|]; [|reflexivity].
    apply finish_date; [lia|exact Ra].
Qed.

(** The layout of the bare year reads January 1 of that year. *)
Lemma Parse_year v :
  Parse "2006" v =
    match fourDigitYear v with
    | Some y => Some (mkTime y 1 1 0 0 0 0 UTC)
    | None => None
    end.
Proof.
  unfold Parse. change (String.length "2006") with 4%nat.
  rewrite (parseLoop_step _ "2006" v 0 (-1) (-1) ""%string stdLongYear ""%string eq_refl).
  rewrite skip_nil. unfold fourDigitYear.
  destruct ((String.length v <? 4)%nat || negb (isDigit0 v)); [reflexivity|].
  destruct (atoi (substring 0 4 v)) as [y|]; [|reflexivity].
  rewrite parseLoop_end.
  destruct (String.length (drop 4 v) =? 0)%nat; [|reflexivity].
  change (-1 <? 0) with true. cbv iota zeta.
  assert (D : daysIn 1 y = 31) by reflexivity.
  rewrite D. change ((1 <? 1) || (31 <? 1)) with false. cbv iota.
  rewrite TimeFacts.Date_in_range; [reflexivity|].
  unfold wellFormed; simpl. rewrite D. lia.
Qed.

(** The five layouts with a day and a month. *)
Lemma Parse_DD_MM v :
  Parse "02/01/2006" v =
    match threeNumbers true true v with
    | Some (a, b, y) => dateOf y b a | None => None end.
Proof.
  exact (Parse_day_month "02/01/2006" "/01/2006" "/2006" true true v
           eq_refl eq_refl eq_refl).
Qed.

Lemma Parse_D_M v :
  Parse "2/1/2006" v =
    match threeNumbers false false v with
    | Some (a, b, y) => dateOf y b a | None => None end.
Proof.
  exact (Parse_day_month "2/1/2006" "/1/2006" "/2006" false false v
           eq_refl eq_refl eq_refl).
Qed.

Lemma Parse_M_D v :
  Parse "1/2/2006" v =
    match threeNumbers false false v with
    | Some (a, b, y) => dateOf y a b | None => None end.
Proof.
  exact (Parse_month_day "1/2/2006" "/2/2006" "/2006" false false v
           eq_refl eq_refl eq_refl).
Qed.

Lemma Parse_DD_M v :
  Parse "02/1/2006" v =
    match threeNumbers true false v with
    | Some (a, b, y) => dateOf y b a | None => None end.
Proof.
  exact (Parse_day_month "02/1/2006" "/1/2006" "/2006" true false v
           eq_refl eq_refl eq_refl).
Qed.

Lemma Parse_D_MM v :
  Parse "2/01/2006" v =
    match threeNumbers false true v with
    | Some (a, b, y) => dateOf y b a | None => None end.
Proof.
  exact (Parse_day_month "2/01/2006" "/01/2006" "/2006" false true v
           eq_refl eq_refl eq_refl).
Qed.

(** *** The year *)

Lemma leadingInt_bound s :
  forall x q rest,
    0 <= x -> leadingInt x s = Some (q, rest) ->
    0 <= q < (x + 1) * 10 ^ Z.of_nat (String.length s).
Proof.
  induction s as [|c s IH]; intros x q rest Hx H.
  - simpl in H. inversion H; subst. simpl. lia.
  - cbn [leadingInt] in H.
    assert (P : 0 < 10 ^ Z.of_nat (String.length s)) by (apply Z.pow_pos_nonneg; lia).
    replace (Z.of_nat (String.length (String c s)))
      with (Z.succ (Z.of_nat (String.length s))) by (simpl String.length; lia).
    rewrite Z.pow_succ_r by lia.
    destruct (digit c) eqn:D; cbn [negb] in H.
    + pose proof (digit_val _ D) as B.
      destruct (2 ^ 63 / 10 <? x); [discriminate|].
      destruct (2 ^ 63 <? x * 10 + digitVal c); [discriminate|].
      apply IH in H; [|lia]. nia.
    + inversion H; subst. nia.
Qed.

Lemma atoi_digit c rest :
  digit c = true ->
  atoi (String c rest) =
    match leadingInt 0 (String c rest) with
    | Some (q, EmptyString) => Some q
    | _ => None
    end.
Proof.
  intros D.
  destruct c as [[] [] [] [] [] [] [] []];
    try (vm_compute in D; discriminate D); reflexivity.
Qed.

Lemma length_substring n :
  forall s, (String.length (substring 0 n s) <= n)%nat.
Proof.
  induction n as [|n IH]; intros s.
  - destruct s; simpl; lia.
  - destruct s as [|c s]; simpl; [lia|]. specialize (IH s). lia.
Qed.

(** The year that a layout reads is between 0 and 9999. *)
Lemma fourDigitYear_range v y : fourDigitYear v = Some y -> 0 <= y <= 9999.
Proof.
  unfold fourDigitYear.
  destruct ((String.length v <? 4)%nat || negb (isDigit0 v)) eqn:E; [discriminate|].
  apply orb_false_iff in E. destruct E as [_ E]. apply negb_false_iff in E.
  destruct v as [|c v']; [discriminate|]. cbn [isDigit0] in E.
  pose proof (length_substring 4 (String c v')) as L.
  cbn [substring] in *. rewrite (atoi_digit _ _ E).
  destruct (leadingInt 0 (String c (substring 0 3 v'))) as [[q r]|] eqn:Q;
    [|discriminate].
  apply leadingInt_bound in Q; [|lia].
  destruct r; [|discriminate].
  destruct (String.length (drop 4 (String c v')) =? 0)%nat; [|discriminate].
  intros H. assert (q = y) by congruence. subst q.
  assert (10 ^ Z.of_nat (String.length (String c (substring 0 3 v'))) <= 10 ^ 4)
    by (apply Z.pow_le_mono_r; lia).
  change (10 ^ 4) with 10000 in *. lia.
Qed.

(** *** The layouts against each other *)

Lemma threeNumbers_any fa fb v r :
  threeNumbers fa fb v = Some r -> threeNumbers false false v = Some r.
Proof.
  unfold threeNumbers.
  destruct (getnum v fa) as [[a v1]|] eqn:Ga; [|discriminate].
  rewrite (getnum_any _ _ _ Ga).
  destruct (slash v1) as [v2|]; [|discriminate].
  destruct (getnum v2 fb) as [[b v3]|] eqn:Gb; [|discriminate].
  rewrite (getnum_any _ _ _ Gb). exact (fun H => H).
Qed.

(** What a day/month layout with two-digit fields reads, the layout
    D/M/YYYY reads too. *)
Lemma subsumed_by_D_M l0 l1 l2 fa fb v t :
  nextStdChunk l0 = (""%string, dayStd fa, l1) ->
  nextStdChunk l1 = ("/"%string, monthStd fb, l2) ->
  nextStdChunk l2 = ("/"%string, stdLongYear, ""%string) ->
  Parse l0 v = Some t -> Parse "2/1/2006" v = Some t.
Proof.
  intros H0 H1 H2. rewrite (Parse_day_month _ _ _ _ _ v H0 H1 H2), Parse_D_M.
  destruct (threeNumbers fa fb v) as [[[a b] y]|] eqn:T; [|discriminate].
  rewrite (threeNumbers_any _ _ _ _ T). exact (fun H => H).
Qed.

Lemma threeNumbers_year fa fb v a b y :
  threeNumbers fa fb v = Some (a, b, y) -> 0 <= y <= 9999.
Proof.
  unfold threeNumbers.
  destruct (getnum v fa) as [[a' v1]|]; [|discriminate].
  destruct (slash v1) as [v2|]; [|discriminate].
  destruct (getnum v2 fb) as [[b' v3]|]; [|discriminate].
  destruct (slash v3) as [v4|]; [|discriminate].
  destruct (fourDigitYear v4) as [y'|] eqn:Y; [|discriminate].
  intros H. inversion H; subst. exact (fourDigitYear_range _ _ Y).
Qed.

Lemma dateOf_plain y m d t :
  0 <= y <= 9999 -> dateOf y m d = Some t ->
  plainDate t /\ year t = y /\ month t = m /\ day t = d.
Proof.
  intros Hy. unfold dateOf.
  destruct ((m <=? 0) || (12 <? m)) eqn:Rm; [discriminate|].
  destruct ((d <? 1) || (daysIn m y <? d)) eqn:Rd; [discriminate|].
  apply orb_false_iff in Rm, Rd. destruct Rm as [M1 M2]. destruct Rd as [D1 D2].
  apply Z.leb_gt in M1. apply Z.ltb_ge in M2, D1, D2.
  intros H. inversion H; subst.
  unfold plainDate, wellFormed; simpl. repeat split; lia.
Qed.

(** Every layout of the program reads plain dates only. *)
Lemma Parse_plain layout v t :
  In layout Membershipship.layouts -> Parse layout v = Some t -> plainDate t.
Proof.
  intros Hin H.
  assert (D : forall fa fb f,
             match threeNumbers fa fb v with
             | Some (a, b, y) => dateOf y (fst (f a b)) (snd (f a b))
             | None => None
             end = Some t -> plainDate t).
  { intros fa fb f. destruct (threeNumbers fa fb v) as [[[a b] y]|] eqn:T;
      [|discriminate].
    intros E. exact (proj1 (dateOf_plain _ _ _ _ (threeNumbers_year _ _ _ _ _ _ T) E)). }
  unfold Membershipship.layouts in Hin.
  repeat (destruct Hin as [<-|Hin]); [ | | | | | | destruct Hin].
  - rewrite Parse_DD_MM in H. exact (D true true (fun a b => (b, a)) H).
  - rewrite Parse_D_M in H. exact (D false false (fun a b => (b, a)) H).
  - rewrite Parse_M_D in H. exact (D false false (fun a b => (a, b)) H).
  - rewrite Parse_DD_M in H. exact (D true false (fun a b => (b, a)) H).
  - rewrite Parse_D_MM in H. exact (D false true (fun a b => (b, a)) H).
  - rewrite Parse_year in H.
    destruct (fourDigitYear v) as [y|] eqn:Y; [|discriminate].
    pose proof (fourDigitYear_range _ _ Y). inversion H; subst.
    unfold plainDate, wellFormed; simpl.
    assert (daysIn 1 y = 31) by reflexivity. repeat split; lia.
Qed.

(** The layouts with a two-digit field never decide. *)
Lemma tryLayouts_short v :
  Source.tryLayouts Revision.layouts v =
    Source.tryLayouts ["2/1/2006"; "1/2/2006"]%string v
  /\ Source.tryLayouts Membershipship.layouts v =
    Source.tryLayouts ["2/1/2006"; "1/2/2006"; "2006"]%string v.
Proof.
  unfold Revision.layouts, Membershipship.layouts. cbn [Source.tryLayouts].
  pose proof (subsumed_by_D_M "02/01/2006" "/01/2006" "/2006" true true v) as S1.
  pose proof (subsumed_by_D_M "02/1/2006" "/1/2006" "/2006" true false v) as S4.
  pose proof (subsumed_by_D_M "2/01/2006" "/01/2006" "/2006" false true v) as S5.
  destruct (Parse "02/01/2006" v) as [t|].
  { rewrite (S1 t eq_refl eq_refl eq_refl eq_refl). split; reflexivity. }
  destruct (Parse "2/1/2006" v) as [t|]; [split; reflexivity|].
  destruct (Parse "1/2/2006" v) as [t|]; [split; reflexivity|].
  destruct (Parse "02/1/2006" v) as [t|].
  { specialize (S4 t eq_refl eq_refl eq_refl eq_refl). discriminate. }
  destruct (Parse "2/01/2006" v) as [t|].
  { specialize (S5 t eq_refl eq_refl eq_refl eq_refl). discriminate. }
  split; reflexivity.
Qed.

(** Where D/M/YYYY fails and M/D/YYYY reads, the day is above 12. *)
Lemma month_first_day v t :
  Parse "2/1/2006" v = None -> Parse "1/2/2006" v = Some t -> 12 < day t.
Proof.
  rewrite Parse_D_M, Parse_M_D.
  destruct (threeNumbers false false v) as [[[a b] y]|] eqn:T; [|discriminate].
  pose proof (threeNumbers_year _ _ _ _ _ _ T) as Hy.
  intros Hdm Hmd.
  destruct (dateOf_plain _ _ _ _ Hy Hmd) as ((W & _) & _ & Em & Ed).
  unfold wellFormed in W. rewrite Em, Ed in W.
  destruct (Z.le_gt_cases b 12) as [Hb|Hb]; [exfalso|lia].
  unfold dateOf in Hdm.
  replace ((b <=? 0) || (12 <? b)) with false in Hdm
    by (symmetry; apply orb_false_iff; split;
        [apply Z.leb_gt|apply Z.ltb_ge]; lia).
  pose proof (TimeFacts.daysIn_bounds b y ltac:(lia)) as Bd.
  replace ((a <? 1) || (daysIn b y <? a)) with false in Hdm
    by (symmetry; apply orb_false_iff; split; apply Z.ltb_ge; lia).
  discriminate.
Qed.

End ShapeFacts.

(** ** [parseDate] *)

Section MoreParseDate.

Import GoStrings GoTime Spec Shape.
Local Open Scope list_scope.

(** X6. [parseDate] returns either a date and no error, or the zero time
    and the error "unable to parse date: " followed by the trimmed
    string.  A date it returns exists in the calendar, is at midnight
    UTC and has a year between 0 and 9999. *)
Theorem parseDate_returns_a_plain_date_or_an_error (dateStr : string) :
  ((exists t, Membershipship.parseDate dateStr = (t, None) /\ plainDate t)
   \/ Membershipship.parseDate dateStr =
      (zeroTime, Some (Errorf ("unable to parse date: " ++ TrimSpace dateStr)%string)))
  /\ ((exists t, Revision.parseDate dateStr = (t, None) /\ plainDate t)
      \/ Revision.parseDate dateStr =
         (zeroTime, Some (Errorf ("unable to parse date: " ++ TrimSpace dateStr)%string))).
Proof.
  assert (G : forall ls,
             (forall l, In l ls -> In l Membershipship.layouts) ->
             (exists t, Source.parseDate ls dateStr = (t, None) /\ plainDate t)
             \/ Source.parseDate ls dateStr =
                (zeroTime,
                 Some (Errorf ("unable to parse date: " ++ TrimSpace dateStr)%string))).
  { intros ls Hls. unfold Source.parseDate.
    induction ls as [|l ls IH].
    - right. reflexivity.
    - cbn [Source.tryLayouts].
      destruct (Parse l (TrimSpace dateStr)) as [t|] eqn:P.
      + left. exists t. split; [reflexivity|].
        exact (ShapeFacts.Parse_plain l _ t (Hls l (or_introl eq_refl)) P).
      + apply IH. intros l' Hl'. apply Hls. right. exact Hl'. }
  split.
  - apply G. intros l H. exact H.
  - apply G. unfold Revision.layouts, Membershipship.layouts. intros l H.
    simpl in H. simpl. tauto.
Qed.

(** X7. The layouts DD/MM/YYYY, DD/M/YYYY and D/MM/YYYY never decide:
    [parseDate] returns what it would return with the layouts D/M/YYYY
    and M/D/YYYY alone (and the bare year in [membershipship.go]). *)
Theorem two_digit_layouts_are_redundant (dateStr : string) :
  Revision.parseDate dateStr =
    Source.parseDate ["2/1/2006"; "1/2/2006"]%string dateStr
  /\ Membershipship.parseDate dateStr =
    Source.parseDate ["2/1/2006"; "1/2/2006"; "2006"]%string dateStr.
Proof.
  apply ShapeFacts.tryLayouts_short.
Qed.

(** X8. A date that [parseDate] returns is the day-first reading of the
    string whenever there is one.  It is the month-first reading only
    when the day so read is above 12, and January 1 of the year for a
    bare year. *)
Theorem month_first_only_above_day_12 (dateStr : string) (t : Time) :
  Membershipship.parseDate dateStr = (t, None) ->
  Parse "2/1/2006" (TrimSpace dateStr) = Some t
  \/ (Parse "2/1/2006" (TrimSpace dateStr) = None
      /\ Parse "1/2/2006" (TrimSpace dateStr) = Some t /\ 12 < day t)
  \/ (Parse "2/1/2006" (TrimSpace dateStr) = None
      /\ Parse "1/2/2006" (TrimSpace dateStr) = None
      /\ Parse "2006" (TrimSpace dateStr) = Some t /\ month t = 1 /\ day t = 1).
Proof.
  unfold Membershipship.parseDate, Source.parseDate.
  rewrite (proj2 (ShapeFacts.tryLayouts_short (TrimSpace dateStr))).
  cbn [Source.tryLayouts].
  destruct (Parse "2/1/2006" (TrimSpace dateStr)) as [t1|] eqn:P1.
  { intros H. left. congruence. }
  destruct (Parse "1/2/2006" (TrimSpace dateStr)) as [t2|] eqn:P2.
  { intros H. right. left. assert (t2 = t) by congruence. subst t2.
    split; [reflexivity|]. split; [reflexivity|].
    exact (ShapeFacts.month_first_day _ _ P1 P2). }
  destruct (Parse "2006" (TrimSpace dateStr)) as [t3|] eqn:P3; [|discriminate].
  intros H. right. right. assert (t3 = t) by congruence. subst t3.
  repeat (split; [reflexivity|]).
  rewrite ShapeFacts.Parse_year in P3.
  destruct (fourDigitYear (TrimSpace dateStr)); [|discriminate].
  inversion P3; subst. split; reflexivity.
Qed.

Lemma month_first_only_above_day_12_witness :
  Membershipship.parseDate "12/25/2023" = (mkTime 2023 12 25 0 0 0 0 UTC, None)
  /\ (Parse "2/1/2006" (TrimSpace "12/25/2023") = Some (mkTime 2023 12 25 0 0 0 0 UTC)
      \/ (Parse "2/1/2006" (TrimSpace "12/25/2023") = None
          /\ Parse "1/2/2006" (TrimSpace "12/25/2023")
             = Some (mkTime 2023 12 25 0 0 0 0 UTC)
          /\ 12 < day (mkTime 2023 12 25 0 0 0 0 UTC))
      \/ (Parse "2/1/2006" (TrimSpace "12/25/2023") = None
          /\ Parse "1/2/2006" (TrimSpace "12/25/2023") = None
          /\ Parse "2006" (TrimSpace "12/25/2023")
             = Some (mkTime 2023 12 25 0 0 0 0 UTC)
          /\ month (mkTime 2023 12 25 0 0 0 0 UTC) = 1
          /\ day (mkTime 2023 12 25 0 0 0 0 UTC) = 1)).
Proof.
  assert (H : Membershipship.parseDate "12/25/2023"
              = (mkTime 2023 12 25 0 0 0 0 UTC, None)) by reflexivity.
  split; [exact H|].
  exact (month_first_only_above_day_12 "12/25/2023"
           (mkTime 2023 12 25 0 0 0 0 UTC) H).
Defined.

(** X15. The two layout lists differ on bare years only: [parseDate] of
    [membershipship.go] returns what [parseDate] of the other revision
    returns, except where that one fails and the trimmed string is a
    year of four digits, which [membershipship.go] reads as January 1 of
    that year. *)
Theorem revisions_differ_on_bare_years_only (dateStr : string) :
  Membershipship.parseDate dateStr = Revision.parseDate dateStr
  \/ exists y,
       0 <= y <= 9999
       /\ Parse "2006" (TrimSpace dateStr) = Some (mkTime y 1 1 0 0 0 0 UTC)
       /\ Membershipship.parseDate dateStr = (mkTime y 1 1 0 0 0 0 UTC, None)
       /\ Revision.parseDate dateStr =
          (zeroTime,
           Some (Errorf ("unable to parse date: " ++ TrimSpace dateStr)%string)).
Proof.
  unfold Membershipship.parseDate, Revision.parseDate, Source.parseDate.
  destruct (ShapeFacts.tryLayouts_short (TrimSpace dateStr)) as [R M].
  rewrite R, M. cbn [Source.tryLayouts].
  destruct (Parse "2/1/2006" (TrimSpace dateStr)); [left; reflexivity|].
  destruct (Parse "1/2/2006" (TrimSpace dateStr)); [left; reflexivity|].
  rewrite ShapeFacts.Parse_year.
  destruct (fourDigitYear (TrimSpace dateStr)) as [y|] eqn:Y; [|left; reflexivity].
  right. exists y. split; [exact (ShapeFacts.fourDigitYear_range _ _ Y)|].
  repeat split; reflexivity.
Qed.

End MoreParseDate.

(** ** Dates written DD/MM/YYYY *)

Module WriteFacts.
Import GoStrings GoTime Spec Shape.

Lemma digitChar_digit k :
  0 <= k <= 9 -> digit (digitChar k) = true /\ digitVal (digitChar k) = k.
Proof.
  intros H.
  assert (C : k = 0 \/ k = 1 \/ k = 2 \/ k = 3 \/ k = 4 \/ k = 5 \/ k = 6
              \/ k = 7 \/ k = 8 \/ k = 9) by lia.
  repeat (destruct C as [C|C]); subst; split; reflexivity.
Qed.

Lemma digit_code c : digit c = true -> (48 <= N_of_ascii c <= 57)%N.
Proof.
  unfold digit, byte_in. intros H.
  apply andb_true_iff in H. destruct H as [H1 H2].
  apply N.leb_le in H1, H2. lia.
Qed.

Lemma byte_is_off c k :
  digit c = true -> (k < 48 \/ 57 < k)%N -> byte_is k c = false.
Proof.
  intros D Hk. apply digit_code in D. unfold byte_is. apply N.eqb_neq. lia.
Qed.

Lemma byte_in_off c lo hi :
  digit c = true -> (hi < 48 \/ 57 < lo)%N -> byte_in lo hi c = false.
Proof.
  intros D Hk. apply digit_code in D. unfold byte_in.
  apply andb_false_iff. destruct Hk as [Hk|Hk].
  - right. apply N.leb_gt. lia.
  - left. apply N.leb_gt. lia.
Qed.

(** A digit neither is nor starts nor ends a white-space rune. *)
Lemma digit_not_space c :
  digit c = true ->
  asciiSpace c = false
  /\ (forall c1, space2 c c1 = false)
  /\ (forall c1 c2, space3 c c1 c2 = false)
  /\ (forall c1, space2 c1 c = false)
  /\ (forall c1 c2, space3 c1 c2 c = false).
Proof.
  intros D. unfold asciiSpace, space2, space3.
  repeat split; intros;
    rewrite ?(byte_is_off c 32 D), ?(byte_is_off c 194 D), ?(byte_is_off c 225 D),
      ?(byte_is_off c 226 D), ?(byte_is_off c 227 D), ?(byte_is_off c 133 D),
      ?(byte_is_off c 160 D), ?(byte_is_off c 128 D), ?(byte_is_off c 175 D),
      ?(byte_is_off c 159 D), ?(byte_in_off c 9 13 D), ?(byte_in_off c 128 138 D),
      ?(byte_in_off c 168 169 D) by lia;
    rewrite ?andb_false_r, ?orb_false_r; reflexivity.
Qed.

Lemma TrimLeftSpace_id s : headSpace s = false -> TrimLeftSpace s = s.
Proof.
  destruct s as [|c0 [|c1 [|c2 s3]]]; cbn [headSpace TrimLeftSpace]; intros H;
    try reflexivity.
  - rewrite orb_false_r in H. rewrite H. reflexivity.
  - apply orb_false_iff in H. destruct H as [H0 H]. rewrite orb_false_r in H.
    rewrite H0, H. reflexivity.
  - apply orb_false_iff in H. destruct H as [H0 H].
    apply orb_false_iff in H. destruct H as [H1 H2].
    rewrite H0, H1, H2. reflexivity.
Qed.

Lemma trimRev_id l : headSpaceRev l = false -> trimRev l = l.
Proof.
  destruct l as [|c0 [|c1 [|c2 l3]]]; cbn [headSpaceRev trimRev]; intros H;
    try reflexivity.
  - rewrite orb_false_r in H. rewrite H. reflexivity.
  - apply orb_false_iff in H. destruct H as [H0 H]. rewrite orb_false_r in H.
    rewrite H0, H. reflexivity.
  - apply orb_false_iff in H. destruct H as [H0 H].
    apply orb_false_iff in H. destruct H as [H1 H2].
    rewrite H0, H1, H2. reflexivity.
Qed.

(** A string with no white space at either end is its own trimming. *)
Lemma TrimSpace_id s :
  headSpace s = false ->
  headSpaceRev (rev (list_ascii_of_string s)) = false ->
  TrimSpace s = s.
Proof.
  intros H1 H2. unfold TrimSpace, TrimRightSpace.
  rewrite (TrimLeftSpace_id s H1), (trimRev_id _ H2), rev_involutive.
  apply string_of_list_ascii_of_string.
Qed.

Lemma getnum_two c0 c1 rest fixed :
  digit c0 = true -> digit c1 = true ->
  getnum (String c0 (String c1 rest)) fixed =
    Some (digitVal c0 * 10 + digitVal c1, rest).
Proof.
  intros D0 D1. unfold getnum. cbn [isDigit0]. rewrite D0, D1. reflexivity.
Qed.

Lemma leadingInt_digit c rest x :
  digit c = true -> 0 <= x <= 99999 ->
  leadingInt x (String c rest) = leadingInt (x * 10 + digitVal c) rest.
Proof.
  intros D Hx. pose proof (ShapeFacts.digit_val c D) as B.
  cbn [leadingInt]. rewrite D. cbn [negb].
  assert (E : 2 ^ 63 / 10 = 922337203685477580) by reflexivity.
  assert (F : 2 ^ 63 = 9223372036854775808) by reflexivity.
  rewrite E, F.
  replace (922337203685477580 <? x) with false by (symmetry; apply Z.ltb_ge; lia).
  replace (9223372036854775808 <? x * 10 + digitVal c) with false
    by (symmetry; apply Z.ltb_ge; lia).
  reflexivity.
Qed.

(** Ten bytes: two digits, a slash, two digits, a slash, four digits. *)
Lemma read_ten_bytes (a1 a2 b1 b2 y1 y2 y3 y4 : ascii) :
  digit a1 = true -> digit a2 = true -> digit b1 = true -> digit b2 = true ->
  digit y1 = true -> digit y2 = true -> digit y3 = true -> digit y4 = true ->
  let s :=
    String a1 (String a2 (String "/" (String b1 (String b2 (String "/"
      (String y1 (String y2 (String y3 (String y4 EmptyString))))))))) in
  TrimSpace s = s
  /\ threeNumbers true true s =
     Some (digitVal a1 * 10 + digitVal a2, digitVal b1 * 10 + digitVal b2,
           ((digitVal y1 * 10 + digitVal y2) * 10 + digitVal y3) * 10 + digitVal y4).
Proof.
  intros A1 A2 B1 B2 Y1 Y2 Y3 Y4 s. split.
  - apply TrimSpace_id.
    + destruct (digit_not_space a1 A1) as (H1 & H2 & H3 & _).
      unfold s. cbn [headSpace]. rewrite H1, H2, H3. reflexivity.
    + destruct (digit_not_space y4 Y4) as (H1 & _ & _ & H4 & H5).
      unfold s. cbn [list_ascii_of_string rev app headSpaceRev].
      rewrite H1, H4, H5. reflexivity.
  - unfold s, threeNumbers.
    rewrite (getnum_two a1 a2 _ true A1 A2).
    change (slash (String "/" ?x)) with (Some x). cbv iota beta.
    cbn [slash]. change (Ascii.eqb "/" "/") with true. cbv iota.
    rewrite (getnum_two b1 b2 _ true B1 B2).
    cbn [slash]. change (Ascii.eqb "/" "/") with true. cbv iota.
    unfold fourDigitYear. cbn [String.length isDigit0 substring drop].
    rewrite Y1. cbn [Nat.ltb Nat.leb negb orb Nat.eqb].
    rewrite (ShapeFacts.atoi_digit _ _ Y1).
    pose proof (ShapeFacts.digit_val _ Y1). pose proof (ShapeFacts.digit_val _ Y2).
    pose proof (ShapeFacts.digit_val _ Y3). pose proof (ShapeFacts.digit_val _ Y4).
    rewrite (leadingInt_digit _ _ _ Y1) by lia.
    rewrite (leadingInt_digit _ _ _ Y2) by lia.
    rewrite (leadingInt_digit _ _ _ Y3) by lia.
    rewrite (leadingInt_digit _ _ _ Y4) by lia.
    reflexivity.
Qed.

Lemma two_digits n :
  0 <= n <= 99 ->
  digit (digitChar (n / 10)) = true /\ digit (digitChar (n mod 10)) = true
  /\ digitVal (digitChar (n / 10)) * 10 + digitVal (digitChar (n mod 10)) = n.
Proof.
  intros H.
  destruct (digitChar_digit (n / 10)) as [D1 V1]; [Z.to_euclidean_division_equations; lia|].
  destruct (digitChar_digit (n mod 10)) as [D2 V2]; [Z.to_euclidean_division_equations; lia|].
  rewrite V1, V2. repeat split; try assumption.
  Z.to_euclidean_division_equations; lia.
Qed.

Lemma four_digits n :
  0 <= n <= 9999 ->
  digit (digitChar (n / 1000)) = true
  /\ digit (digitChar ((n / 100) mod 10)) = true
  /\ digit (digitChar ((n / 10) mod 10)) = true
  /\ digit (digitChar (n mod 10)) = true
  /\ ((digitVal (digitChar (n / 1000)) * 10
       + digitVal (digitChar ((n / 100) mod 10))) * 10
      + digitVal (digitChar ((n / 10) mod 10))) * 10
     + digitVal (digitChar (n mod 10)) = n.
Proof.
  intros H.
  destruct (digitChar_digit (n / 1000)) as [D1 V1]; [Z.to_euclidean_division_equations; lia|].
  destruct (digitChar_digit ((n / 100) mod 10)) as [D2 V2]; [Z.to_euclidean_division_equations; lia|].
  destruct (digitChar_digit ((n / 10) mod 10)) as [D3 V3]; [Z.to_euclidean_division_equations; lia|].
  destruct (digitChar_digit (n mod 10)) as [D4 V4]; [Z.to_euclidean_division_equations; lia|].
  rewrite V1, V2, V3, V4. repeat split; try assumption.
  Z.to_euclidean_division_equations; lia.
Qed.

(** A date written DD/MM/YYYY has nothing to trim and is read by the
    first layout as the day, month and year written. *)
Lemma writeDate_read y m d :
  0 <= y <= 9999 -> 0 <= m <= 99 -> 0 <= d <= 99 ->
  TrimSpace (writeDate y m d) = writeDate y m d
  /\ Parse "02/01/2006" (writeDate y m d) = dateOf y m d.
Proof.
  intros Hy Hm Hd.
  destruct (two_digits d Hd) as (A1 & A2 & Va).
  destruct (two_digits m Hm) as (B1 & B2 & Vb).
  destruct (four_digits y Hy) as (Y1 & Y2 & Y3 & Y4 & Vy).
  destruct (read_ten_bytes _ _ _ _ _ _ _ _ A1 A2 B1 B2 Y1 Y2 Y3 Y4) as [T N].
  rewrite Va, Vb, Vy in N.
  split; [exact T|].
  rewrite ShapeFacts.Parse_DD_MM.
  change (writeDate y m d) with
    (String (digitChar (d / 10)) (String (digitChar (d mod 10)) (String "/"
       (String (digitChar (m / 10)) (String (digitChar (m mod 10)) (String "/"
          (String (digitChar (y / 1000)) (String (digitChar ((y / 100) mod 10))
             (String (digitChar ((y / 10) mod 10))
                (String (digitChar (y mod 10)) EmptyString)))))))))).
  rewrite N. reflexivity.
Qed.

End WriteFacts.

Section MoreWrittenDates.

Import GoStrings GoTime Spec Shape.

(** X9. Round trip: an existing date of a year from 0 to 9999, written
    DD/MM/YYYY with two digits for the day, two for the month and four
    for the year, is read back by [parseDate] as that day, month and
    year, at midnight UTC.  This holds for both layout lists. *)
Theorem written_dates_are_read_back (y m d : Z) :
  0 <= y <= 9999 -> 1 <= m <= 12 -> 1 <= d <= daysIn m y ->
  Membershipship.parseDate (writeDate y m d) = (mkTime y m d 0 0 0 0 UTC, None)
  /\ Revision.parseDate (writeDate y m d) = (mkTime y m d 0 0 0 0 UTC, None).
Proof.
  intros Hy Hm Hd.
  pose proof (TimeFacts.daysIn_bounds m y Hm) as Bd.
  destruct (WriteFacts.writeDate_read y m d Hy ltac:(lia) ltac:(lia)) as [T P].
  assert (D : dateOf y m d = Some (mkTime y m d 0 0 0 0 UTC)).
  { unfold dateOf.
    replace ((m <=? 0) || (12 <? m)) with false
      by (symmetry; apply orb_false_iff; split;
          [apply Z.leb_gt|apply Z.ltb_ge]; lia).
    replace ((d <? 1) || (daysIn m y <? d)) with false
      by (symmetry; apply orb_false_iff; split; apply Z.ltb_ge; lia).
    reflexivity. }
  rewrite D in P.
  unfold Membershipship.parseDate, Revision.parseDate, Source.parseDate.
  rewrite T. unfold Membershipship.layouts, Revision.layouts.
  cbn [Source.tryLayouts]. rewrite P. split; reflexivity.
Qed.

Lemma written_dates_are_read_back_witness :
  0 <= 2024 <= 9999 /\ 1 <= 2 <= 12 /\ 1 <= 29 <= daysIn 2 2024
  /\ Membershipship.parseDate (writeDate 2024 2 29)
     = (mkTime 2024 2 29 0 0 0 0 UTC, None)
  /\ Revision.parseDate (writeDate 2024 2 29)
     = (mkTime 2024 2 29 0 0 0 0 UTC, None).
Proof.
  assert (H1 : 0 <= 2024 <= 9999) by lia.
  assert (H2 : 1 <= 2 <= 12) by lia.
  assert (H3 : 1 <= 29 <= daysIn 2 2024) by (change (daysIn 2 2024) with 29; lia).
  split; [exact H1|]. split; [exact H2|]. split; [exact H3|].
  exact (written_dates_are_read_back 2024 2 29 H1 H2 H3).
Defined.

End MoreWrittenDates.

(** ** The handlers *)

Module WebFacts.

Local Open Scope list_scope.

(** The members that [fetchMemberData] returns are [dated]. *)
Lemma fetched_members_dated (w : World) (layouts : list string) (st : State) :
  (forall n, GoTime.wellFormed (Now w n)) ->
  Forall dated (fst (fst (Source.fetchMemberData w layouts st))).
Proof.
  intros Hnow. unfold Source.fetchMemberData.
  destruct (String.eqb (Getenv w "CSV_URL") ""); [constructor|].
  set (url := Getenv w "CSV_URL").
  destruct (Get w url) as [resp|e] eqn:HG.
  - destruct (ReadAll w (Body resp)) as [data|e] eqn:HR.
    + rewrite (PipelineFacts.readCSVFromUrl_decoded _ _ _ _ _ _ HG HR).
      cbn [fst]. unfold normalize.
      apply PipelineFacts.rowsLoop_dated; [exact Hnow|constructor].
    + rewrite (PipelineFacts.readCSVFromUrl_malformed _ _ _ _ _ _ HG HR).
      constructor.
  - rewrite (PipelineFacts.readCSVFromUrl_unreachable _ _ _ _ _ HG). constructor.
Qed.

Import Web.


(** [fetchAndRender] when the fetch succeeds and the template parses. *)
Lemma fetchAndRender_rendered (site : Site) (layouts : list string)
  (p : Page) (v : Visit) members st' t :
  Source.fetchMemberData (feed site) layouts (run v) = ((members, None), st') ->
  ParseFiles site "home.html" = inl t ->
  let page := mkPage (Title p) (Body p) members in
  fetchAndRender site layouts p v =
    (tt, mkVisit st'
           (replies v
            ++ Wrote (fst (ExecutePage site t page))
            :: match snd (ExecutePage site t page) with
               | Some e => [Failed e StatusInternalServerError]
               | None => []
               end)).
Proof.
  intros H HP page. unfold fetchAndRender, andThen, lift. rewrite H.
  unfold renderTemplate. change ("home" ++ ".html")%string with "home.html"%string.
  rewrite HP. fold page.
  destruct (ExecutePage site t page) as [out [e|]]; unfold andThen, reply, done;
    cbn [fst snd run replies]; rewrite <- ?app_assoc; reflexivity.
Qed.

Lemma loadPage_home (site : Site) :
  loadPage site "home" =
    match ReadFile site "home.txt" with
    | inr err => inr err
    | inl body => inl (mkPage "home" body [])
    end.
Proof. reflexivity. Qed.

End WebFacts.

Section MoreHandlers.

Import GoStrings GoTime Spec Web.
Local Open Scope list_scope.

(** X10. When [home.txt] cannot be read, [viewHomeHandler] redirects to
    "/" with status 302 and does nothing else: the feed is not fetched
    and no template is rendered.  So does the handler of the first
    revision. *)
Theorem missing_home_page_redirects_without_fetching
  (site : Site) (layouts : list string) (v : Visit) (err : string) :
  ReadFile site "home.txt" = inr err ->
  viewHomeHandler site layouts v =
    (tt, mkVisit (run v) (replies v ++ [Redirected "/" 302]))
  /\ viewHomeHandler0 site v =
    (tt, mkVisit (run v) (replies v ++ [Redirected "/" 302])).
Proof.
  intros H. unfold viewHomeHandler, viewHomeHandler0.
  rewrite WebFacts.loadPage_home, H. split; reflexivity.
Qed.

Lemma missing_home_page_redirects_without_fetching_witness :
  ReadFile WebFixture.bare "home.txt" = inr "open home.txt"
  /\ viewHomeHandler WebFixture.bare Membershipship.layouts (arriving Fixture.start) =
     (tt, mkVisit Fixture.start [Redirected "/" 302]).
Proof.
  assert (H : ReadFile WebFixture.bare "home.txt" = inr "open home.txt")
    by reflexivity.
  split; [exact H|].
  exact (proj1 (missing_home_page_redirects_without_fetching WebFixture.bare
                  Membershipship.layouts (arriving Fixture.start) _ H)).
Defined.



(** X12. When the fetch succeeds and [home.html] parses, the template is
    executed once, on the page that holds exactly the fetched members;
    what it writes is written, and if it fails after that, the error is
    reported by [http.Error] after the part of the page already written.
    Every member on that page has a join date that exists and the
    expiration date that [AddDate(1, 0, 0)] makes of it. *)
Theorem home_page_is_rendered_with_the_fetched_members
  (site : Site) (layouts : list string) (v : Visit)
  (members : list Member) (st' : State) (t : Template) :
  (forall n, wellFormed (Now (feed site) n)) ->
  Source.fetchMemberData (feed site) layouts (run v) = ((members, None), st') ->
  ParseFiles site "home.html" = inl t ->
  let rendered (page : Page) :=
    (tt, mkVisit st'
           (replies v
            ++ Wrote (fst (ExecutePage site t page))
            :: match snd (ExecutePage site t page) with
               | Some e => [Failed e 500]
               | None => []
               end)) in
  viewHomeHandler1 site layouts v = rendered (mkPage "" "" members)
  /\ (forall body, ReadFile site "home.txt" = inl body ->
                   viewHomeHandler site layouts v =
                   rendered (mkPage "home" body members))
  /\ Forall dated members.
Proof.
  intros Hnow H HP rendered. split; [|split].
  - exact (WebFacts.fetchAndRender_rendered site layouts _ v _ _ _ H HP).
  - intros body HB. unfold viewHomeHandler.
    rewrite WebFacts.loadPage_home, HB.
    exact (WebFacts.fetchAndRender_rendered site layouts _ v _ _ _ H HP).
  - pose proof (WebFacts.fetched_members_dated (feed site) layouts (run v) Hnow) as D.
    rewrite H in D. exact D.
Qed.

Lemma home_page_is_rendered_with_the_fetched_members_witness :
  let fetched :=
    Source.fetchMemberData (feed WebFixture.site) Revision.layouts
      (run (arriving Fixture.start)) in
  viewHomeHandler1 WebFixture.site Revision.layouts (arriving Fixture.start) =
    (tt, mkVisit (snd fetched)
           ([] ++ Wrote (fst (ExecutePage WebFixture.site (mkTemplate 1)
                                (mkPage "" "" (fst (fst fetched)))))
               :: match snd (ExecutePage WebFixture.site (mkTemplate 1)
                               (mkPage "" "" (fst (fst fetched)))) with
                  | Some e => [Failed e 500]
                  | None => []
                  end))
  /\ Forall dated (fst (fst fetched)).
Proof.
  intros fetched.
  assert (H : Source.fetchMemberData (feed WebFixture.site) Revision.layouts
                (run (arriving Fixture.start))
              = ((fst (fst fetched), None), snd fetched)) by reflexivity.
  assert (HP : ParseFiles WebFixture.site "home.html" = inl (mkTemplate 1))
    by reflexivity.
  pose proof (home_page_is_rendered_with_the_fetched_members WebFixture.site
                Revision.layouts (arriving Fixture.start) _ _ _
                PipelineFacts.leapClock_wellFormed H HP) as W.
  cbv zeta in W. split; [exact (proj1 W)|exact (proj2 (proj2 W))].
Defined.

(** X13. [generateGoogleCardHandler] reads three parameters of the
    query and no other: "firstName", "lastName" and "ExpirationDate",
    spelled so.  Two queries that give these three the same first value
    get the same answer. *)
Theorem card_handler_reads_three_parameters
  (site : Site) (query query' : Values) (v : Visit) :
  ValuesGet query "firstName" = ValuesGet query' "firstName" ->
  ValuesGet query "lastName" = ValuesGet query' "lastName" ->
  ValuesGet query "ExpirationDate" = ValuesGet query' "ExpirationDate" ->
  generateGoogleCardHandler site query v = generateGoogleCardHandler site query' v.
Proof.
  intros H1 H2 H3. unfold generateGoogleCardHandler.
  rewrite H1, H2, H3. reflexivity.
Qed.

Lemma card_handler_reads_three_parameters_witness :
  generateGoogleCardHandler WebFixture.site WebFixture.misspelled
    (arriving Fixture.start)
  = generateGoogleCardHandler WebFixture.site
      (fun key => if String.eqb key "ExpirationDate" then []
                  else WebFixture.query key)
      (arriving Fixture.start).
Proof.
  apply (card_handler_reads_three_parameters WebFixture.site WebFixture.misspelled
           (fun key => if String.eqb key "ExpirationDate" then []
                       else WebFixture.query key)
           (arriving Fixture.start)); reflexivity.
Defined.

(** X14. [generateGoogleCardHandler] writes nothing of a rendering that
    failed: whatever it writes is the whole output of a successful
    execution of the template read from [./google_card.json], on the
    three parameters of the query, followed by a line feed. *)
Theorem card_handler_writes_complete_payloads_only
  (site : Site) (query : Values) (v : Visit) (bytes : string) :
  In (Wrote bytes) (replies (snd (generateGoogleCardHandler site query v))) ->
  In (Wrote bytes) (replies v)
  \/ exists text tmpl out,
       ReadFile site "./google_card.json" = inl text
       /\ ParseText site text = inl tmpl
       /\ ExecuteCard site tmpl
            (mkCard (ValuesGet query "firstName") (ValuesGet query "lastName")
                    (ValuesGet query "ExpirationDate")) = (out, None)
       /\ bytes = (out ++ String "010" "")%string.
Proof.
  unfold generateGoogleCardHandler, renderJsonTemplate.
  destruct (ReadFile site "./google_card.json") as [text|err] eqn:HR.
  - destruct (ParseText site text) as [tmpl|err] eqn:HP.
    + destruct (ExecuteCard site tmpl _) as [out [err|]] eqn:HE.
      * cbn [reply snd replies]. intros H. apply in_app_or in H.
        destruct H as [H|[H|[]]]; [left; exact H|discriminate].
      * cbn [reply snd replies]. intros H. apply in_app_or in H.
        destruct H as [H|[H|[]]]; [left; exact H|].
        right. exists text, tmpl, out. inversion H; subst.
        repeat split; assumption.
    + cbn [reply snd replies]. intros H. apply in_app_or in H.
      destruct H as [H|[H|[]]]; [left; exact H|discriminate].
  - cbn [reply snd replies]. intros H. apply in_app_or in H.
    destruct H as [H|[H|[]]]; [left; exact H|discriminate].
Qed.

Lemma card_handler_writes_complete_payloads_only_witness :
  In (Wrote (String.append "Ann Lee until 2024-03-15" (String "010" "")))
     (replies (snd (generateGoogleCardHandler WebFixture.site WebFixture.query
                      (arriving Fixture.start))))
  /\ (In (Wrote (String.append "Ann Lee until 2024-03-15" (String "010" "")))
         (replies (arriving Fixture.start))
      \/ exists text tmpl out,
           ReadFile WebFixture.site "./google_card.json" = inl text
           /\ ParseText WebFixture.site text = inl tmpl
           /\ ExecuteCard WebFixture.site tmpl
                (mkCard (ValuesGet WebFixture.query "firstName")
                        (ValuesGet WebFixture.query "lastName")
                        (ValuesGet WebFixture.query "ExpirationDate")) = (out, None)
           /\ String.append "Ann Lee until 2024-03-15" (String "010" "")
              = (out ++ String "010" "")%string).
Proof.
  assert (H : In (Wrote (String.append "Ann Lee until 2024-03-15" (String "010" "")))
                (replies (snd (generateGoogleCardHandler WebFixture.site
                                 WebFixture.query (arriving Fixture.start)))))
    by (left; reflexivity).
  split; [exact H|].
  exact (card_handler_writes_complete_payloads_only WebFixture.site WebFixture.query
           (arriving Fixture.start) _ H).
Defined.

End MoreHandlers.


(** ** White space around the fields *)

Module PadFacts.
Import GoStrings Spec.

(** An ASCII white-space byte is no byte of a longer white-space rune. *)
Lemma asciiSpace_alone c :
  asciiSpace c = true ->
  (forall c0, space2 c0 c = false)
  /\ (forall c0 c2, space3 c0 c c2 = false)
  /\ (forall c0 c1, space3 c0 c1 c = false).
Proof.
  unfold asciiSpace, space2, space3, byte_in, byte_is. intros H.
  assert (R : (N_of_ascii c <= 32)%N).
  { apply orb_true_iff in H. destruct H as [H|H].
    - apply andb_true_iff in H. destruct H as [_ H]. apply N.leb_le in H. lia.
    - apply N.eqb_eq in H. lia. }
  assert (E : forall k, (32 < k)%N -> N.eqb (N_of_ascii c) k = false)
    by (intros k Hk; apply N.eqb_neq; lia).
  assert (L : forall k, (32 < k)%N -> N.leb k (N_of_ascii c) = false)
    by (intros k Hk; apply N.leb_gt; lia).
  repeat split; intros;
    rewrite ?(E 133%N), ?(E 160%N), ?(E 154%N), ?(E 128%N), ?(E 129%N),
      ?(E 175%N), ?(E 159%N), ?(L 128%N), ?(L 168%N) by lia;
    cbn [andb orb]; rewrite ?andb_false_r, ?orb_false_r; cbn [andb orb];
    rewrite ?andb_false_r; reflexivity.
Qed.

Lemma TrimLeftSpace_blank p : blank p = true -> TrimLeftSpace p = "".
Proof.
  induction p as [|c p IH]; [reflexivity|]. cbn [blank]. intros H.
  apply andb_true_iff in H. destruct H as [Hc Hp].
  cbn [TrimLeftSpace]. rewrite Hc. exact (IH Hp).
Qed.

(** White space before the text is dropped with the rest. *)
Lemma TrimLeftSpace_pad pad s :
  blank pad = true -> TrimLeftSpace (pad ++ s) = TrimLeftSpace s.
Proof.
  induction pad as [|c p IH]; [reflexivity|]. cbn [blank]. intros H.
  apply andb_true_iff in H. destruct H as [Hc Hp].
  change (String c p ++ s) with (String c (p ++ s)).
  cbn [TrimLeftSpace]. rewrite Hc. exact (IH Hp).
Qed.

(** ASCII white space after the text: what is left of the text keeps it,
    and a text of white space only leaves nothing. *)
Lemma TrimLeftSpace_app_blank p :
  blank p = true ->
  forall n s, (String.length s <= n)%nat ->
    TrimLeftSpace (s ++ p) =
    match TrimLeftSpace s with
    | EmptyString => ""
    | u => u ++ p
    end.
Proof.
  intros Hp. induction n as [|n IH]; intros s Hn.
  - destruct s; simpl in Hn; [|lia]. simpl. apply TrimLeftSpace_blank, Hp.
  - destruct s as [|c0 s1]; [simpl; apply TrimLeftSpace_blank, Hp|].
    simpl in Hn. change (String c0 s1 ++ p) with (String c0 (s1 ++ p)).
    cbn [TrimLeftSpace].
    destruct (asciiSpace c0) eqn:E0; [apply IH; lia|].
    destruct s1 as [|c1 s2].
    { cbn [append]. destruct p as [|q0 p1]; [reflexivity|].
      cbn [blank] in Hp. apply andb_true_iff in Hp. destruct Hp as [Hq0 Hp1].
      destruct (asciiSpace_alone q0 Hq0) as (A2 & A3 & _).
      rewrite A2. destruct p1 as [|q1 p2]; [reflexivity|].
      rewrite A3. reflexivity. }
    simpl in Hn. change (String c1 s2 ++ p) with (String c1 (s2 ++ p)).
    cbv iota.
    destruct (space2 c0 c1) eqn:E1; [apply IH; lia|].
    destruct s2 as [|c2 s3].
    { cbn [append]. destruct p as [|q0 p1]; [reflexivity|].
      cbn [blank] in Hp. apply andb_true_iff in Hp. destruct Hp as [Hq0 Hp1].
      destruct (asciiSpace_alone q0 Hq0) as (_ & _ & A3).
      rewrite A3. reflexivity. }
    simpl in Hn. change (String c2 s3 ++ p) with (String c2 (s3 ++ p)).
    cbv iota.
    destruct (space3 c0 c1 c2) eqn:E2; [apply IH; lia|].
    reflexivity.
Qed.

Lemma trimRev_blank l x :
  Forall (fun c => asciiSpace c = true) l ->
  trimRev (l ++ x)%list = trimRev x.
Proof.
  induction 1 as [|c l Hc Hl IH]; [reflexivity|].
  change ((c :: l) ++ x)%list with (c :: (l ++ x))%list.
  cbn [trimRev]. rewrite Hc. exact IH.
Qed.

Lemma blank_bytes p :
  blank p = true ->
  Forall (fun c => asciiSpace c = true) (rev (list_ascii_of_string p)).
Proof.
  intros H. apply Forall_rev. induction p as [|c p IH]; [constructor|].
  cbn [blank] in H. apply andb_true_iff in H. destruct H as [Hc Hp].
  simpl. constructor; [exact Hc|exact (IH Hp)].
Qed.

Lemma TrimRightSpace_pad s pad :
  blank pad = true -> TrimRightSpace (s ++ pad) = TrimRightSpace s.
Proof.
  intros H. unfold TrimRightSpace.
  rewrite TrimFacts.list_of_app, rev_app_distr.
  rewrite (trimRev_blank _ _ (blank_bytes pad H)). reflexivity.
Qed.

(** [TrimSpace] does not see ASCII white space added around a string. *)
Lemma TrimSpace_padded f f' :
  paddedField f f' -> TrimSpace f' = TrimSpace f.
Proof.
  intros (pad & pad' & Hp & Hp' & ->). unfold TrimSpace.
  rewrite (TrimLeftSpace_pad pad _ Hp).
  rewrite (TrimLeftSpace_app_blank pad' Hp' _ f (le_n _)).
  destruct (TrimLeftSpace f) as [|c u] eqn:E.
  - reflexivity.
  - apply TrimRightSpace_pad, Hp'.
Qed.

Lemma paddedField_refl f : paddedField f f.
Proof.
  exists "", "". repeat split. simpl. symmetry. apply TrimFacts.append_nil_r.
Qed.

Lemma index_padded row row' k :
  Forall2 paddedField row row' -> paddedField (index row k) (index row' k).
Proof.
  intros H. revert k. unfold index.
  induction H as [|f f' row row' Hf _ IH]; intros k.
  - destruct k; apply paddedField_refl.
  - destruct k as [|k]; [exact Hf|apply IH].
Qed.

Lemma Forall2_same_length (row row' : list string) :
  Forall2 paddedField row row' -> List.length row' = List.length row.
Proof. induction 1; simpl; congruence. Qed.

(** A padded row is handled as the row itself. *)
Lemma rowsLoop_padded (w : World) (layouts : list string) i row row' data members st :
  Forall2 paddedField row row' ->
  Source.rowsLoop w layouts i (row' :: data) members st =
  Source.rowsLoop w layouts i (row :: data) members st.
Proof.
  intros H. cbn [Source.rowsLoop].
  rewrite (Forall2_same_length _ _ H).
  unfold Source.parseDate.
  rewrite !(TrimSpace_padded _ _ (index_padded row row' _ H)).
  reflexivity.
Qed.

(** Every member the loop adds is [tidy]. *)
Lemma rowsLoop_tidy (w : World) (layouts : list string) data :
  forall i members st,
    Forall tidy members ->
    Forall tidy (fst (Source.rowsLoop w layouts i data members st)).
Proof.
  assert (T : forall row t, tidy (memberOf row t)).
  { intros row t. unfold tidy, noSpaceAround, memberOf. cbn.
    repeat split; apply TrimFacts.TrimSpace_trimmed. }
  induction data as [|row data IH]; intros i members st Hms.
  - exact Hms.
  - destruct (retained i row) eqn:R.
    + destruct (Source.parseDate layouts (index row 5)) as [t [e|]] eqn:P.
      * rewrite (LoopFacts.rowsLoop_fallback _ _ _ _ _ _ _ _ _ R P). apply IH.
        apply Forall_app. split; [exact Hms|]. constructor; [apply T|constructor].
      * rewrite (LoopFacts.rowsLoop_parsed _ _ _ _ _ _ _ _ R P). apply IH.
        apply Forall_app. split; [exact Hms|]. constructor; [apply T|constructor].
    + rewrite (LoopFacts.rowsLoop_skip _ _ _ _ _ _ _ R). apply IH. exact Hms.
Qed.

End PadFacts.

Section MoreTrimming.

Local Open Scope list_scope.

(** X16 ([readCSVFromUrl], [parseDate]: [strings.TrimSpace] on the four
    fields read).  ASCII white space (tab, line feed, vertical tab, form
    feed, carriage return, space) added before or after the fields of
    one row changes neither the members nor the warnings nor the clock
    readings of the loop: the row is skipped or kept as before, and its
    names, e-mail address and date are read as before. *)
Theorem padding_the_fields_changes_nothing
  (w : World) (layouts : list string)
  (before : list (list string)) (row row' : list string)
  (after : list (list string)) (st : State) :
  Forall2 paddedField row row' ->
  normalize w layouts (before ++ row' :: after) st =
  normalize w layouts (before ++ row :: after) st.
Proof.
  intros H. unfold normalize.
  rewrite !LoopFacts.rowsLoop_app.
  apply PadFacts.rowsLoop_padded. exact H.
Qed.

Lemma padding_the_fields_changes_nothing_witness :
  normalize Fixture.world Membershipship.layouts
    ([["id"; "first"; "last"; "email"; "phone"; "joined"]]
     ++ [" 7 "; " Ann "; " Lee "; " ann@roster.test "; " 555 "; " 29/02/2024 "]
     :: []) Fixture.start =
  normalize Fixture.world Membershipship.layouts
    ([["id"; "first"; "last"; "email"; "phone"; "joined"]]
     ++ ["7"; "Ann"; "Lee"; "ann@roster.test"; "555"; "29/02/2024"]
     :: []) Fixture.start.
Proof.
  apply (padding_the_fields_changes_nothing Fixture.world Membershipship.layouts
           [["id"; "first"; "last"; "email"; "phone"; "joined"]]
           ["7"; "Ann"; "Lee"; "ann@roster.test"; "555"; "29/02/2024"]
           [" 7 "; " Ann "; " Lee "; " ann@roster.test "; " 555 "; " 29/02/2024 "]
           [] Fixture.start).
  repeat (constructor; [exists " ", " "; repeat split|]).
  constructor.
Defined.

(** X17 ([readCSVFromUrl], [fetchMemberData]).  Whatever the feed holds
    and whether or not the fetch succeeds, no first name, last name or
    e-mail address of a returned member starts or ends with a
    white-space rune. *)
Theorem returned_names_have_no_space_around
  (w : World) (layouts : list string) (st : State) :
  Forall tidy (fst (fst (Source.fetchMemberData w layouts st)))
  /\ forall url,
       Forall tidy (fst (fst (Source.readCSVFromUrl w layouts url st))).
Proof.
  assert (R : forall url st0,
             Forall tidy (fst (fst (Source.readCSVFromUrl w layouts url st0)))).
  { intros url st0.
    destruct (Get w url) as [resp|e] eqn:HG.
    - destruct (ReadAll w (Body resp)) as [data|e] eqn:HR.
      + rewrite (PipelineFacts.readCSVFromUrl_decoded _ _ _ _ _ _ HG HR).
        cbn [fst]. unfold normalize.
        apply PadFacts.rowsLoop_tidy. constructor.
      + rewrite (PipelineFacts.readCSVFromUrl_malformed _ _ _ _ _ _ HG HR).
        constructor.
    - rewrite (PipelineFacts.readCSVFromUrl_unreachable _ _ _ _ _ HG). constructor. }
  split; [|intros url; apply R].
  unfold Source.fetchMemberData.
  destruct (String.eqb (Getenv w "CSV_URL") ""); [constructor|apply R].
Qed.

End MoreTrimming.
